(** * NpmCodeLensProvider: a shallow embedding of
      src/providers/npm/npmCodeLensProvider.js

    The provider is glue code running on the editor's event loop.  The
    embedding keeps what the file itself does:

    - the two provider fields [_outdatedCache] and [_documentPath] and the
      [appSettings] flags are explicit state;
    - every call of a collaborator that the claims talk about (predicates
      of the code lens, the five render functions, [console.log],
      [console.error], the JSON parser, the dependency extraction, the
      registry query, the lens generation) leaves an event in a
      chronological log;
    - a JavaScript exception is the [Thrown] outcome of a computation;
    - a promise is either already settled ([Settled]) or waits for the
      outcome of the registry query ([Pending]); its reactions then run
      one at a time, among the reactions of overlapping requests
      ([Interleaving]); the reaction that [generateDecoration] attaches
      to [Promise.resolve(this._outdatedCache)] is a job on the microtask
      queue, run after the synchronous code. *)

From Stdlib Require Import String List Bool ZArith Lia.
Import ListNotations.
Local Open Scope string_scope.
Local Open Scope list_scope.

(** ** JavaScript values used by the provider *)

(** A version slot of a plain object: a string, or [undefined] when the
    property is missing. *)
Inductive JsVal : Type :=
| Undefined
| Str (s : string).

(** [!v] is false exactly for a non-empty string. *)
Definition truthy (v : JsVal) : bool :=
  match v with
  | Undefined => false
  | Str s => negb (s =? EmptyString)
  end.

(** [a === b] *)
Definition strict_eq (a b : JsVal) : bool :=
  match a, b with
  | Undefined, Undefined => true
  | Str s, Str t => (s =? t)
  | _, _ => false
  end.

Inductive JsError : Type :=
| TypeError (msg : string)
| ErrorValue (msg : string).

(** A feature flag of [appSettings]: unset, or a boolean. *)
Definition Flag : Type := option bool.

(** [flag === false] *)
Definition is_false (f : Flag) : bool :=
  match f with
  | Some false => true
  | _ => false
  end.

(** [if (flag)] *)
Definition enabled (f : Flag) : bool :=
  match f with
  | Some true => true
  | _ => false
  end.

(** ** Data model *)

Record Position : Type := { line : nat; character : nat }.

Record Range : Type := { range_start : Position; range_end : Position }.

(** [package.meta.tag] *)
Record Tag : Type := { tag_version : JsVal }.

(** [package.meta]; [meta_type] is [meta.type], [meta_tag] is [meta.tag]. *)
Record Meta : Type := { meta_type : string; meta_tag : option Tag }.

(** [codeLens.package]; [pkg_meta] is [None] when [package.meta] is absent. *)
Record Package : Type :=
  { pkg_name : string; pkg_version : string; pkg_meta : option Meta }.

(** Modelled from the spec: the code lens class is not part of this file
    ("associates a dependency node with registry metadata (tag, type,
    resolved version) and exposes boolean predicates"); the nine
    predicates and [getTaggedVersion] are methods implemented elsewhere,
    and each field is what the method answers for this lens. *)
Record CodeLens : Type :=
  { package : Package;
    replaceRange : Range;
    packageNotFound : bool;
    packageNotSupported : bool;
    isTaggedVersion : bool;
    isInvalidVersion : bool;
    versionMatchNotFound : bool;
    matchesPrereleaseVersion : bool;
    matchesLatestVersion : bool;
    satisfiesLatestVersion : bool;
    isFixedVersion : bool;
    getTaggedVersion : JsVal }.

(** Modelled from the spec: an entry of the result of [npmGetOutdated]
    ("[{name, current}] pairs reflecting locally installed state"). *)
Record OutdatedEntry : Type := { entry_name : string; current : JsVal }.

Inductive Predicate : Type :=
| PackageNotFound
| PackageNotSupported
| IsTaggedVersion
| IsInvalidVersion
| VersionMatchNotFound
| MatchesPrereleaseVersion
| MatchesLatestVersion
| SatisfiesLatestVersion
| IsFixedVersion.

Definition answer (p : Predicate) (codeLens : CodeLens) : bool :=
  match p with
  | PackageNotFound => packageNotFound codeLens
  | PackageNotSupported => packageNotSupported codeLens
  | IsTaggedVersion => isTaggedVersion codeLens
  | IsInvalidVersion => isInvalidVersion codeLens
  | VersionMatchNotFound => versionMatchNotFound codeLens
  | MatchesPrereleaseVersion => matchesPrereleaseVersion codeLens
  | MatchesLatestVersion => matchesLatestVersion codeLens
  | SatisfiesLatestVersion => satisfiesLatestVersion codeLens
  | IsFixedVersion => isFixedVersion codeLens
  end.

(** Modelled from the spec: the command factory is not part of this file
    ("command-factory (one constructor per resolved command kind)"); a
    command is the name of the constructor with the arguments it was
    called on. *)
Inductive Command : Type :=
| GithubCommand (codeLens : CodeLens)
| LinkCommand (codeLens : CodeLens)
| PackageNotFoundCommand (codeLens : CodeLens)
| PackageNotSupportedCommand (codeLens : CodeLens)
| TaggedVersionCommand (codeLens : CodeLens)
| InvalidCommand (codeLens : CodeLens)
| VersionMatchNotFoundCommand (codeLens : CodeLens)
| MatchesPrereleaseVersionCommand (codeLens : CodeLens)
| MatchesLatestVersionCommand (codeLens : CodeLens)
| SatisfiesLatestVersionCommand (codeLens : CodeLens)
| FixedVersionCommand (codeLens : CodeLens)
| VersionCommand (declared : string) (tagVersion : JsVal) (codeLens : CodeLens).

(** Modelled from the spec: the decoration module is not part of this file
    ("decoration-rendering functions (five named render variants)"); a
    decoration is the render function with the arguments it was called on.
    An argument left out of a call is [Undefined]. *)
Inductive Decoration : Type :=
| MissingDecoration (r : Range)
| InstalledDecoration (r : Range) (v : JsVal) (entered : JsVal)
| OutdatedDecoration (r : Range) (v : JsVal)
| NeedsUpdateDecoration (r : Range) (v : JsVal)
| PrereleaseInstalledDecoration (r : Range) (v : JsVal).

(** ** State, log and microtask queue *)

Record Provider : Type :=
  { _outdatedCache : list OutdatedEntry;
    _documentPath : string }.

Record AppSettings : Type :=
  { showVersionLenses : Flag;
    showDependencyStatuses : Flag;
    inProgress : bool }.

(** What the provider does to the outside, in the order it happens. *)
Inductive Event : Type :=
| EvPredicate (p : Predicate)
    (* a predicate method of the code lens is called *)
| EvPackageDirExists (documentPath packageName : string)
    (* npmPackageDirExists(documentPath, packageName) *)
| EvRender (d : Decoration)
    (* one of the five render functions is called *)
| EvConsoleLog (label : option string) (err : JsError)
    (* console.log(err), console.log(label, err) *)
| EvConsoleError (err : JsError)
    (* console.error(err) *)
| EvJsonParse (text : string)
    (* jsonParser.parse(text) *)
| EvExtractDependencyNodes
| EvParseDependencyNodes
| EvNpmGetOutdated (documentPath : string)
    (* npmGetOutdated(documentPath) *)
| EvGenerateCodeLenses (cacheAtCall : list OutdatedEntry).
    (* generateCodeLenses(...), with this._outdatedCache of that moment *)

(** The reaction queued by [generateDecoration]: the closure of the [then]
    callback over [codeLens], with the value the promise was resolved
    with. *)
Record DecorationJob : Type :=
  { job_outdated : list OutdatedEntry;
    job_codeLens : CodeLens }.

Record World : Type :=
  { provider : Provider;
    settings : AppSettings;
    log : list Event;
    microtasks : list DecorationJob }.

(** ** Computations: state and exceptions *)

Inductive Outcome (A : Type) : Type :=
| Returned (a : A)
| Thrown (e : JsError).

Arguments Returned {A} a.
Arguments Thrown {A} e.

Definition M (A : Type) : Type := World -> Outcome A * World.

Definition ret {A : Type} (a : A) : M A := fun w => (Returned a, w).

Definition throw {A : Type} (e : JsError) : M A := fun w => (Thrown e, w).

Definition bind {A B : Type} (m : M A) (k : A -> M B) : M B :=
  fun w =>
    match m w with
    | (Returned a, w') => k a w'
    | (Thrown e, w') => (Thrown e, w')
    end.

Declare Scope js_scope.
Delimit Scope js_scope with js.

Notation "x <- m ;; k" := (bind m (fun x => k))
  (at level 100, m at next level, right associativity) : js_scope.
Notation "m ;; k" := (bind m (fun _ => k))
  (at level 100, right associativity) : js_scope.

Local Open Scope js_scope.

Definition emit (e : Event) : M unit :=
  fun w =>
    (Returned tt,
     {| provider := provider w; settings := settings w;
        log := log w ++ [e]; microtasks := microtasks w |}).

Definition get_provider : M Provider := fun w => (Returned (provider w), w).

Definition get_settings : M AppSettings := fun w => (Returned (settings w), w).

Definition set_outdatedCache (results : list OutdatedEntry) : M unit :=
  fun w =>
    (Returned tt,
     {| provider := {| _outdatedCache := results;
                       _documentPath := _documentPath (provider w) |};
        settings := settings w; log := log w; microtasks := microtasks w |}).

Definition set_documentPath (p : string) : M unit :=
  fun w =>
    (Returned tt,
     {| provider := {| _outdatedCache := _outdatedCache (provider w);
                       _documentPath := p |};
        settings := settings w; log := log w; microtasks := microtasks w |}).

Definition set_inProgress (b : bool) : M unit :=
  fun w =>
    (Returned tt,
     {| provider := provider w;
        settings := {| showVersionLenses := showVersionLenses (settings w);
                       showDependencyStatuses := showDependencyStatuses (settings w);
                       inProgress := b |};
        log := log w; microtasks := microtasks w |}).

Definition enqueue (j : DecorationJob) : M unit :=
  fun w =>
    (Returned tt,
     {| provider := provider w; settings := settings w;
        log := log w; microtasks := microtasks w ++ [j] |}).

(** ** Promises *)

Inductive Settled (A : Type) : Type :=
| Fulfilled (a : A)
| Rejected (e : JsError).

Arguments Fulfilled {A} a.
Arguments Rejected {A} e.

(** [p.then(f)]: the callback runs on fulfilment, an exception it throws
    rejects the new promise, a rejection of [p] passes through. *)
Definition then_ {A B : Type} (p : Settled A) (f : A -> M B) : M (Settled B) :=
  match p with
  | Fulfilled a =>
      fun w =>
        match f a w with
        | (Returned b, w') => (Returned (Fulfilled b), w')
        | (Thrown e, w') => (Returned (Rejected e), w')
        end
  | Rejected e => ret (Rejected e)
  end.

(** [p.catch(h)] for a handler that returns nothing: the new promise is
    fulfilled with the value of [p], or with [undefined] ([None]) after
    the handler ran; only an exception of the handler rejects it. *)
Definition catch_ {A : Type} (p : Settled A) (h : JsError -> M unit)
  : M (Settled (option A)) :=
  match p with
  | Fulfilled a => ret (Fulfilled (Some a))
  | Rejected e =>
      fun w =>
        match h e w with
        | (Returned _, w') => (Returned (Fulfilled None), w')
        | (Thrown e', w') => (Returned (Rejected e'), w')
        end
  end.

(** A callback that returns a promise: the outer promise adopts it. *)
Definition adopt {A : Type} (p : Settled A) : M A :=
  match p with
  | Fulfilled a => ret a
  | Rejected e => throw e
  end.

(** ** Calls into the collaborators that only leave an event *)

Definition ask (p : Predicate) (codeLens : CodeLens) : M bool :=
  emit (EvPredicate p) ;; ret (answer p codeLens).

Definition renderMissingDecoration (r : Range) : M unit :=
  emit (EvRender (MissingDecoration r)).

Definition renderInstalledDecoration (r : Range) (v entered : JsVal) : M unit :=
  emit (EvRender (InstalledDecoration r v entered)).

Definition renderOutdatedDecoration (r : Range) (v : JsVal) : M unit :=
  emit (EvRender (OutdatedDecoration r v)).

Definition renderNeedsUpdateDecoration (r : Range) (v : JsVal) : M unit :=
  emit (EvRender (NeedsUpdateDecoration r v)).

Definition renderPrereleaseInstalledDecoration (r : Range) (v : JsVal) : M unit :=
  emit (EvRender (PrereleaseInstalledDecoration r v)).

(** [console.log("npmGetOutdated", err)] *)
Definition console_log_labelled (label : string) (err : JsError) : M unit :=
  emit (EvConsoleLog (Some label) err).

(** [console.log(err)] *)
Definition console_log (err : JsError) : M unit :=
  emit (EvConsoleLog None err).

(** [console.error] used as a rejection handler *)
Definition console_error (err : JsError) : M unit :=
  emit (EvConsoleError err).

(** ** Array helpers *)

Fixpoint findIndex_from {A : Type} (f : A -> bool) (l : list A) (i : Z) : Z :=
  match l with
  | [] => (-1)%Z
  | x :: t => if f x then i else findIndex_from f t (i + 1)%Z
  end.

(** [Array.prototype.findIndex]: the index of the first element the test
    accepts, [-1] when there is none. *)
Definition findIndex {A : Type} (f : A -> bool) (l : list A) : Z :=
  findIndex_from f l 0%Z.

(** [l[i]] for a number [i]; [None] is [undefined]. *)
Definition index {A : Type} (l : list A) (i : Z) : option A :=
  if (i <? 0)%Z then None else nth_error l (Z.to_nat i).

(** ** The decoration channel *)

(** [codeLens.package.meta.tag.version]: reading a property of [undefined]
    throws. *)
Definition meta_tag_version (codeLens : CodeLens) : M JsVal :=
  match pkg_meta (package codeLens) with
  | None => throw (TypeError "Cannot read property 'tag' of undefined")
  | Some m =>
      match meta_tag m with
      | None => throw (TypeError "Cannot read property 'version' of undefined")
      | Some t => ret (tag_version t)
      end
  end.

(** The callback given to [then] in [generateDecoration]. *)
Definition decorationCallback (codeLens : CodeLens) (outdated : list OutdatedEntry)
  : M unit :=
  let currentPackageName := pkg_name (package codeLens) in
  let findIndex_ :=
    findIndex (fun entry => entry_name entry =? currentPackageName) outdated in
  if (findIndex_ =? -1)%Z then
    v <- meta_tag_version codeLens ;;
    renderInstalledDecoration (replaceRange codeLens) v Undefined
  else
    match index outdated findIndex_ with
    | None => throw (TypeError "Cannot read property 'current' of undefined")
    | Some found =>
        let current_ := current found in
        entered <- meta_tag_version codeLens ;;
        if negb (truthy current_) then
          renderMissingDecoration (replaceRange codeLens)
        else if strict_eq current_ entered then
          latest <- ask MatchesLatestVersion codeLens ;;
          if latest then
            renderInstalledDecoration (replaceRange codeLens) current_ entered
          else
            prerelease <- ask MatchesPrereleaseVersion codeLens ;;
            if prerelease then
              renderPrereleaseInstalledDecoration (replaceRange codeLens) entered
            else
              renderOutdatedDecoration (replaceRange codeLens) current_
        else
          renderNeedsUpdateDecoration (replaceRange codeLens) current_
    end.

(** [Promise.resolve(outdated).then(callback).catch(console.error)], run
    when the event loop reaches the job. *)
Definition run_job (j : DecorationJob) : M unit :=
  p <- then_ (Fulfilled (job_outdated j)) (decorationCallback (job_codeLens j)) ;;
  _ <- catch_ p console_error ;;
  ret tt.

Fixpoint run_jobs (js : list DecorationJob) : M unit :=
  match js with
  | [] => ret tt
  | j :: rest => run_job j ;; run_jobs rest
  end.

(** The event loop empties the microtask queue once the synchronous code
    has returned. *)
Definition drain : M unit :=
  fun w =>
    run_jobs (microtasks w)
      {| provider := provider w; settings := settings w;
         log := log w; microtasks := [] |}.

(** ** Reactions of overlapping work *)

(** The reactions this file puts on the microtask queue.  The reactions
    of one request run one at a time, so reactions that belong to another
    request, or to [generateDecoration], can run between two of them. *)
Inductive Reaction : Type :=
| StoreResults (results : list OutdatedEntry)
    (* results => this._outdatedCache = results, of another request *)
| LogRejection (label : option string) (err : JsError)
    (* one of the two catch handlers, of another request *)
| GenerateLenses
    (* the then callback of provideCodeLenses, of another request *)
| Decorate (j : DecorationJob).
    (* the reaction queued by generateDecoration *)

Definition run_reaction (r : Reaction) : M unit :=
  match r with
  | StoreResults results => set_outdatedCache results
  | LogRejection label err => emit (EvConsoleLog label err)
  | GenerateLenses =>
      set_inProgress false ;;
      this <- get_provider ;;
      emit (EvGenerateCodeLenses (_outdatedCache this))
  | Decorate j => run_job j
  end.

Fixpoint run_reactions (rs : list Reaction) : M unit :=
  match rs with
  | [] => ret tt
  | r :: rest => run_reaction r ;; run_reactions rest
  end.

(** What runs between the reactions of one request: after its store
    [then(results => ...)], after the [catch] of [updateOutdated], and
    after its lens generation. *)
Record Interleaving : Type :=
  { after_store : list Reaction;
    after_refresh : list Reaction;
    after_generation : list Reaction }.

(** Nothing else is queued. *)
Definition undisturbed : Interleaving :=
  {| after_store := []; after_refresh := []; after_generation := [] |}.

(** A promise that settles once the registry query has an outcome: its
    reactions run from that outcome, among the reactions of other work. *)
Definition Pending (A : Type) : Type :=
  Settled (list OutdatedEntry) -> Interleaving -> M (Settled A).

(** ** The provider *)

(** [document.uri.fsPath] and [document.getText()] *)
Record TextDocument : Type := { fsPath : string; getText : string }.

Record CancellationToken : Type := { isCancellationRequested : bool }.

(** What [provideCodeLenses] hands back to the editor: nothing, an array,
    or the promise at the end of its chain. *)
Inductive ProvideResult : Type :=
| ResultUndefined
| ResultArray (lenses : list CodeLens)
| ResultPromise (chain : Pending (option (list CodeLens))).

Section Provider.

(** The tree types of the collaborators. *)
Variables Node DependencyNode PackageCollection : Type.

(** What [jsonParser.parse] returns: [root] and
    [validationResult.errors]. *)
Record JsonDocument : Type :=
  { root : option Node; validationErrors : list string }.

(** [path.dirname] *)
Variable dirname : string -> string.

(** [jsonParser.parse]; [None] is a falsy result. *)
Variable jsonParse : string -> option JsonDocument.

(** [appConfig.npmDependencyProperties] *)
Variable npmDependencyProperties : list string.

Variable extractDependencyNodes : Node -> list string -> list DependencyNode.

(** [parseDependencyNodes(nodes, appConfig, npmPackageParser)] *)
Variable parseDependencyNodes : list DependencyNode -> PackageCollection.

(** [generateCodeLenses] hands back a promise of the lenses. *)
Variable generateCodeLenses :
  PackageCollection -> TextDocument -> Settled (list CodeLens).

(** [npmPackageDirExists(documentPath, packageName)] *)
Variable npmPackageDirExists : string -> string -> bool.

(** [!jsonDoc || !jsonDoc.root || jsonDoc.validationResult.errors.length > 0] *)
Definition parse_failed (jsonDoc : option JsonDocument) : bool :=
  match jsonDoc with
  | None => true
  | Some d =>
      match root d with
      | None => true
      | Some _ => (0 <? length (validationErrors d))%nat
      end
  end.

Definition generateDecoration (codeLens : CodeLens) : M unit :=
  this <- get_provider ;;
  let documentPath := _documentPath this in
  let currentPackageName := pkg_name (package codeLens) in
  emit (EvPackageDirExists documentPath currentPackageName) ;;
  let packageDirExists := npmPackageDirExists documentPath currentPackageName in
  if negb packageDirExists then
    renderMissingDecoration (replaceRange codeLens)
  else
    this' <- get_provider ;;
    enqueue {| job_outdated := _outdatedCache this'; job_codeLens := codeLens |}.

(** Lines 79 to 124 of [evaluateCodeLens], after the two checks on the
    type of the metadata. *)
Definition evaluateRegistryPackage (codeLens : CodeLens) : M Command :=
  notFound <- ask PackageNotFound codeLens ;;
  if notFound then ret (PackageNotFoundCommand codeLens) else
  notSupported <- ask PackageNotSupported codeLens ;;
  if notSupported then ret (PackageNotSupportedCommand codeLens) else
  tagged <- ask IsTaggedVersion codeLens ;;
  if tagged then ret (TaggedVersionCommand codeLens) else
  s <- get_settings ;;
  (if enabled (showDependencyStatuses s)
   then generateDecoration codeLens
   else ret tt) ;;
  invalid <- ask IsInvalidVersion codeLens ;;
  if invalid then ret (InvalidCommand codeLens) else
  noMatch <- ask VersionMatchNotFound codeLens ;;
  if noMatch then ret (VersionMatchNotFoundCommand codeLens) else
  prerelease <- ask MatchesPrereleaseVersion codeLens ;;
  if prerelease then ret (MatchesPrereleaseVersionCommand codeLens) else
  latest <- ask MatchesLatestVersion codeLens ;;
  if latest then ret (MatchesLatestVersionCommand codeLens) else
  satisfies <- ask SatisfiesLatestVersion codeLens ;;
  if satisfies then ret (SatisfiesLatestVersionCommand codeLens) else
  fixed <- ask IsFixedVersion codeLens ;;
  if fixed then ret (FixedVersionCommand codeLens) else
  let tagVersion := getTaggedVersion codeLens in
  ret (VersionCommand (pkg_version (package codeLens)) tagVersion codeLens).

Definition evaluateCodeLens (codeLens : CodeLens) : M Command :=
  match pkg_meta (package codeLens) with
  | Some m =>
      if meta_type m =? "github" then ret (GithubCommand codeLens)
      else if meta_type m =? "file" then ret (LinkCommand codeLens)
      else evaluateRegistryPackage codeLens
  | None => evaluateRegistryPackage codeLens
  end.

(** The reactions [updateOutdated] attaches to the query:
    [then(results => this._outdatedCache = results)] and
    [catch(err => console.log("npmGetOutdated", err))], with what runs
    between the two. *)
Definition updateOutdated_reactions : Pending (option (list OutdatedEntry)) :=
  fun (queried : Settled (list OutdatedEntry)) (others : Interleaving) =>
    p <- then_ queried (fun results => set_outdatedCache results ;; ret results) ;;
    run_reactions (after_store others) ;;
    catch_ p (console_log_labelled "npmGetOutdated").

(** [updateOutdated] starts the query for [this._documentPath] and hands
    back the promise at the end of its reactions. *)
Definition updateOutdated : M (Pending (option (list OutdatedEntry))) :=
  this <- get_provider ;;
  emit (EvNpmGetOutdated (_documentPath this)) ;;
  ret updateOutdated_reactions.

(** The reactions [provideCodeLenses] attaches to the promise of
    [updateOutdated]: the [then] callback that generates the lenses and
    [catch(err => console.log(err))].  They are reactions of their own:
    what [others] holds runs between the settlement of [updateOutdated]
    and the lens generation, and between the lens generation and the last
    [catch].  The event of the call of [generateCodeLenses] records the
    cache the provider holds at that moment. *)
Definition provideCodeLenses_reactions
  (refreshed : Pending (option (list OutdatedEntry)))
  (packageCollection : PackageCollection) (document : TextDocument)
  : Pending (option (list CodeLens)) :=
  fun (queried : Settled (list OutdatedEntry)) (others : Interleaving) =>
    p <- refreshed queried others ;;
    run_reactions (after_refresh others) ;;
    q <- then_ p
           (fun _ =>
              set_inProgress false ;;
              this <- get_provider ;;
              emit (EvGenerateCodeLenses (_outdatedCache this)) ;;
              adopt (generateCodeLenses packageCollection document)) ;;
    run_reactions (after_generation others) ;;
    catch_ q console_log.

Definition provideCodeLenses (document : TextDocument) (token : CancellationToken)
  : M ProvideResult :=
  s <- get_settings ;;
  if is_false (showVersionLenses s) then ret ResultUndefined else
  set_documentPath (dirname (fsPath document)) ;;
  emit (EvJsonParse (getText document)) ;;
  let jsonDoc := jsonParse (getText document) in
  if parse_failed jsonDoc then ret (ResultArray []) else
  match jsonDoc with
  | Some {| root := Some root_ |} =>
      emit EvExtractDependencyNodes ;;
      let dependencyNodes := extractDependencyNodes root_ npmDependencyProperties in
      emit EvParseDependencyNodes ;;
      let packageCollection := parseDependencyNodes dependencyNodes in
      set_inProgress true ;;
      refreshed <- updateOutdated ;;
      ret (ResultPromise
             (provideCodeLenses_reactions refreshed packageCollection document))
  | _ =>
      (* not reached: the test above has returned for these documents *)
      throw (TypeError "Cannot read property 'root' of null")
  end.

(** What the promise handed to the editor settles to: the lenses, or
    [undefined] ([None]) when their generation failed. *)
Definition lenses_result (packageCollection : PackageCollection)
  (document : TextDocument) : Settled (option (list CodeLens)) :=
  match generateCodeLenses packageCollection document with
  | Fulfilled lenses => Fulfilled (Some lenses)
  | Rejected _ => Fulfilled None
  end.

(** What the last [catch] of [provideCodeLenses] writes to the console. *)
Definition lenses_events (packageCollection : PackageCollection)
  (document : TextDocument) : list Event :=
  match generateCodeLenses packageCollection document with
  | Fulfilled _ => []
  | Rejected e => [EvConsoleLog None e]
  end.

(** [generateDecoration] followed by the event loop running the reaction
    it queued. *)
Definition generateDecoration_settled (codeLens : CodeLens) : M unit :=
  generateDecoration codeLens ;; drain.


End Provider.

Arguments root {Node} j.
Arguments validationErrors {Node} j.

(** ** Vocabulary of the specification *)

(** [meta.type === t], false when the package has no metadata. *)
Definition meta_type_is (codeLens : CodeLens) (t : string) : bool :=
  match pkg_meta (package codeLens) with
  | Some m => meta_type m =? t
  | None => false
  end.

(** The predicates of the specification's priority list that come after
    the two checks on the metadata type, each with its command. *)
Definition priority : list (Predicate * (CodeLens -> Command)) :=
  [ (PackageNotFound, PackageNotFoundCommand);
    (PackageNotSupported, PackageNotSupportedCommand);
    (IsTaggedVersion, TaggedVersionCommand);
    (IsInvalidVersion, InvalidCommand);
    (VersionMatchNotFound, VersionMatchNotFoundCommand);
    (MatchesPrereleaseVersion, MatchesPrereleaseVersionCommand);
    (MatchesLatestVersion, MatchesLatestVersionCommand);
    (SatisfiesLatestVersion, SatisfiesLatestVersionCommand);
    (IsFixedVersion, FixedVersionCommand) ].

(** The fallback of the list: the generic version command. *)
Definition genericVersionCommand (codeLens : CodeLens) : Command :=
  VersionCommand (pkg_version (package codeLens)) (getTaggedVersion codeLens)
    codeLens.

(** First match wins. *)
Fixpoint first_match (codeLens : CodeLens)
  (l : list (Predicate * (CodeLens -> Command))) : Command :=
  match l with
  | [] => genericVersionCommand codeLens
  | (p, create) :: rest =>
      if answer p codeLens then create codeLens else first_match codeLens rest
  end.

(** The predicates a first-match walk over [ps] tests: all up to and
    including the first that holds. *)
Fixpoint tested (codeLens : CodeLens) (ps : list Predicate) : list Predicate :=
  match ps with
  | [] => []
  | p :: rest => p :: (if answer p codeLens then [] else tested codeLens rest)
  end.


(** The predicate calls in a stretch of the log, in order. *)
Fixpoint predicates_of (evs : list Event) : list Predicate :=
  match evs with
  | [] => []
  | EvPredicate p :: rest => p :: predicates_of rest
  | _ :: rest => predicates_of rest
  end.

(** The decorations rendered in a stretch of the log, in order. *)
Fixpoint rendered (evs : list Event) : list Decoration :=
  match evs with
  | [] => []
  | EvRender d :: rest => d :: rendered rest
  | _ :: rest => rendered rest
  end.

(** The errors written with [console.error] in a stretch of the log. *)
Fixpoint console_errors (evs : list Event) : list JsError :=
  match evs with
  | [] => []
  | EvConsoleError e :: rest => e :: console_errors rest
  | _ :: rest => console_errors rest
  end.

(** Whether [generateDecoration] ran in a stretch of the log: it is the
    only caller of [npmPackageDirExists]. *)
Fixpoint decoration_started (evs : list Event) : bool :=
  match evs with
  | [] => false
  | EvPackageDirExists _ _ :: _ => true
  | _ :: rest => decoration_started rest
  end.


(** The comparison table of the specification for a package found in the
    outdated cache: [current] is the version recorded in the cache entry,
    [entered] the tag version of the package metadata. *)
Definition decoration_by_comparison (codeLens : CodeLens) (current_ entered : JsVal)
  : Decoration :=
  if strict_eq current_ entered then
    if matchesLatestVersion codeLens then
      InstalledDecoration (replaceRange codeLens) current_ entered
    else if matchesPrereleaseVersion codeLens then
      PrereleaseInstalledDecoration (replaceRange codeLens) entered
    else
      OutdatedDecoration (replaceRange codeLens) current_
  else
    NeedsUpdateDecoration (replaceRange codeLens) current_.

(** The table with the guard of the code in front: an entry without a
    recorded version means that nothing is installed. *)
Definition decoration_for_entry (codeLens : CodeLens) (current_ entered : JsVal)
  : Decoration :=
  if truthy current_ then decoration_by_comparison codeLens current_ entered
  else MissingDecoration (replaceRange codeLens).

(** The test [generateDecoration] gives to [findIndex]. *)
Definition same_name (codeLens : CodeLens) (entry : OutdatedEntry) : bool :=
  entry_name entry =? pkg_name (package codeLens).

(** The world with another outdated cache. *)
Definition with_cache (cache : list OutdatedEntry) (w : World) : World :=
  {| provider := {| _outdatedCache := cache;
                    _documentPath := _documentPath (provider w) |};
     settings := settings w; log := log w; microtasks := microtasks w |}.

(** The world after further events were logged. *)
Definition logged (delta : list Event) (w : World) : World :=
  {| provider := provider w; settings := settings w;
     log := log w ++ delta; microtasks := microtasks w |}.

(** The world with another document path. *)
Definition with_path (path : string) (w : World) : World :=
  {| provider := {| _outdatedCache := _outdatedCache (provider w);
                    _documentPath := path |};
     settings := settings w; log := log w; microtasks := microtasks w |}.

(** The world with another progress flag. *)
Definition with_inProgress (b : bool) (w : World) : World :=
  {| provider := provider w;
     settings := {| showVersionLenses := showVersionLenses (settings w);
                    showDependencyStatuses := showDependencyStatuses (settings w);
                    inProgress := b |};
     log := log w; microtasks := microtasks w |}.

(** The cache after the stores among some reactions: the last one wins. *)
Fixpoint stored (rs : list Reaction) (cache : list OutdatedEntry)
  : list OutdatedEntry :=
  match rs with
  | [] => cache
  | StoreResults results :: rest => stored rest results
  | _ :: rest => stored rest cache
  end.

(** The lens generations of other requests among some reactions. *)
Fixpoint foreign_generations (rs : list Reaction) : nat :=
  match rs with
  | [] => 0
  | GenerateLenses :: rest => S (foreign_generations rest)
  | _ :: rest => foreign_generations rest
  end.

(** Reactions leave the document path, the two feature flags and the
    queue of decoration reactions as they are. *)
Definition same_frame (w w' : World) : Prop :=
  _documentPath (provider w') = _documentPath (provider w)
  /\ showVersionLenses (settings w') = showVersionLenses (settings w)
  /\ showDependencyStatuses (settings w') = showDependencyStatuses (settings w)
  /\ microtasks w' = microtasks w.

(** The cache the provider holds once the query has settled. *)
Definition refreshed_cache (queried : Settled (list OutdatedEntry))
  (old : list OutdatedEntry) : list OutdatedEntry :=
  match queried with
  | Fulfilled results => results
  | Rejected _ => old
  end.

(** What the settlement of [updateOutdated] writes to the console. *)
Definition refresh_events (queried : Settled (list OutdatedEntry)) : list Event :=
  match queried with
  | Fulfilled _ => []
  | Rejected e => [EvConsoleLog (Some "npmGetOutdated") e]
  end.

(** The number of calls of [generateCodeLenses] in a stretch of the log. *)
Fixpoint generations (evs : list Event) : nat :=
  match evs with
  | [] => 0
  | EvGenerateCodeLenses _ :: rest => S (generations rest)
  | _ :: rest => generations rest
  end.

(** ** Sample inputs *)

Module Sample.

Definition range : Range :=
  {| range_start := {| line := 7; character := 15 |};
     range_end := {| line := 7; character := 22 |} |}.

Definition npm_meta : Meta :=
  {| meta_type := "npm"; meta_tag := Some {| tag_version := Str "4.17.21" |} |}.

(** ["lodash": "^4.17.0"], satisfied by the latest version. *)
Definition lodash : CodeLens :=
  {| package := {| pkg_name := "lodash"; pkg_version := "^4.17.0";
                   pkg_meta := Some npm_meta |};
     replaceRange := range;
     packageNotFound := false;
     packageNotSupported := false;
     isTaggedVersion := false;
     isInvalidVersion := false;
     versionMatchNotFound := false;
     matchesPrereleaseVersion := false;
     matchesLatestVersion := false;
     satisfiesLatestVersion := true;
     isFixedVersion := false;
     getTaggedVersion := Str "4.17.21" |}.

(** The same dependency on a lens that carries no metadata. *)
Definition lodash_without_meta : CodeLens :=
  {| package := {| pkg_name := "lodash"; pkg_version := "^4.17.0";
                   pkg_meta := None |};
     replaceRange := range;
     packageNotFound := false;
     packageNotSupported := false;
     isTaggedVersion := false;
     isInvalidVersion := false;
     versionMatchNotFound := false;
     matchesPrereleaseVersion := false;
     matchesLatestVersion := false;
     satisfiesLatestVersion := true;
     isFixedVersion := false;
     getTaggedVersion := Str "4.17.21" |}.

Definition app_settings : AppSettings :=
  {| showVersionLenses := Some true;
     showDependencyStatuses := Some true;
     inProgress := false |}.

Definition world (cache : list OutdatedEntry) : World :=
  {| provider := {| _outdatedCache := cache; _documentPath := "/home/dev/app" |};
     settings := app_settings;
     log := [];
     microtasks := [] |}.

Definition disabled_world : World :=
  {| provider := {| _outdatedCache := []; _documentPath := EmptyString |};
     settings := {| showVersionLenses := Some false;
                    showDependencyStatuses := Some true;
                    inProgress := false |};
     log := [];
     microtasks := [] |}.

(** [npm outdated] lists lodash with an older installed version. *)
Definition lodash_behind : OutdatedEntry :=
  {| entry_name := "lodash"; current := Str "4.17.15" |}.

(** [npm outdated] lists lodash without an installed version. *)
Definition lodash_not_installed : OutdatedEntry :=
  {| entry_name := "lodash"; current := Undefined |}.

Definition installed (documentPath packageName : string) : bool := true.


Definition manifest : TextDocument :=
  {| fsPath := "/home/dev/app/package.json";
     getText := "{ 'dependencies': { 'lodash': '^4.17.0' } }" |}.

Definition broken_manifest : TextDocument :=
  {| fsPath := "/home/dev/app/package.json"; getText := "{" |}.

Definition token : CancellationToken := {| isCancellationRequested := false |}.

(** Stand-ins for the collaborators: the tree is the text itself. *)
Definition dirname (p : string) : string := "/home/dev/app".

Definition jsonParse (text : string) : option (JsonDocument string) :=
  if text =? "{" then
    Some {| root := None; validationErrors := ["Unexpected end of input"] |}
  else
    Some {| root := Some text; validationErrors := [] |}.

Definition extractDependencyNodes (tree : string) (properties : list string)
  : list string := [tree].

Definition parseDependencyNodes (nodes : list string) : list CodeLens :=
  map (fun _ => lodash) nodes.

Definition generateCodeLenses (collection : list CodeLens) (document : TextDocument)
  : Settled (list CodeLens) := Fulfilled collection.

Definition provide : TextDocument -> CancellationToken -> M ProvideResult :=
  provideCodeLenses string string (list CodeLens) dirname jsonParse
    ["dependencies"; "devDependencies"; "peerDependencies"; "optionalDependencies"]
    extractDependencyNodes parseDependencyNodes generateCodeLenses.

(** A request for the manifest, up to the promise it hands back. *)
Definition requested : Outcome ProvideResult * World :=
  provide manifest token (world []).

Definition chain : Pending (option (list CodeLens)) :=
  match fst requested with
  | Returned (ResultPromise reactions) => reactions
  | _ => fun _ _ => throw (ErrorValue "no promise")
  end.

Definition refreshing : World := snd requested.

End Sample.

(** ** Sequences of settlements *)

(** The reactions of [updateOutdated] for several queries, run in the
    order in which the queries settle, one request after the other. *)
Fixpoint settle_in_order (queries : list (Settled (list OutdatedEntry)))
  : M unit :=
  match queries with
  | [] => ret tt
  | queried :: rest =>
      _ <- updateOutdated_reactions queried undisturbed ;; settle_in_order rest
  end.

(** The result of the last query that was fulfilled, if any. *)
Fixpoint last_fulfilled (queries : list (Settled (list OutdatedEntry)))
  : option (list OutdatedEntry) :=
  match queries with
  | [] => None
  | queried :: rest =>
      match last_fulfilled rest with
      | Some results => Some results
      | None =>
          match queried with
          | Fulfilled results => Some results
          | Rejected _ => None
          end
      end
  end.

(** Whether [codeLens.package.meta.tag] can be read. *)
Definition has_tag (codeLens : CodeLens) : bool :=
  match pkg_meta (package codeLens) with
  | Some m =>
      match meta_tag m with
      | Some _ => true
      | None => false
      end
  | None => false
  end.

(** ** Sample inputs: a linked package and a second project *)

Module TwoProjects.

(** ["left-pad": "github:left-pad/left-pad"], unknown to the registry. *)
Definition linked : CodeLens :=
  {| package := {| pkg_name := "left-pad";
                   pkg_version := "github:left-pad/left-pad";
                   pkg_meta := Some {| meta_type := "github"; meta_tag := None |} |};
     replaceRange := Sample.range;
     packageNotFound := true;
     packageNotSupported := false;
     isTaggedVersion := false;
     isInvalidVersion := true;
     versionMatchNotFound := false;
     matchesPrereleaseVersion := false;
     matchesLatestVersion := false;
     satisfiesLatestVersion := false;
     isFixedVersion := false;
     getTaggedVersion := Undefined |}.

Definition api_manifest : TextDocument :=
  {| fsPath := "/srv/api/package.json";
     getText := "{ 'dependencies': { 'left-pad': '^1.3.0' } }" |}.

(** A stand-in for [path.dirname] that knows the two manifests. *)
Definition dirname (p : string) : string :=
  if p =? "/srv/api/package.json" then "/srv/api" else "/home/dev/app".

Definition provide : TextDocument -> CancellationToken -> M ProvideResult :=
  provideCodeLenses string string (list CodeLens) dirname Sample.jsonParse
    ["dependencies"; "devDependencies"; "peerDependencies"; "optionalDependencies"]
    Sample.extractDependencyNodes Sample.parseDependencyNodes
    Sample.generateCodeLenses.

End TwoProjects.

(** ** Proof tools *)

Ltac unfold_ops :=
  unfold ask, renderMissingDecoration, renderInstalledDecoration,
    renderOutdatedDecoration, renderNeedsUpdateDecoration,
    renderPrereleaseInstalledDecoration, console_log, console_log_labelled,
    console_error, emit, get_provider, get_settings, set_outdatedCache,
    set_documentPath, set_inProgress, enqueue, adopt, throw, bind, ret in *.

Ltac split_world w :=
  let cache := fresh "cache" in
  let path := fresh "path" in
  let versionLenses := fresh "versionLenses" in
  let statuses := fresh "statuses" in
  let progress := fresh "progress" in
  let events := fresh "events" in
  let queue := fresh "queue" in
  destruct w as [[cache path] [versionLenses statuses progress] events queue].

(** ** Arrays *)

Lemma findIndex_from_none {A : Type} (f : A -> bool) (l : list A) :
  forall i : Z,
    (0 <= i)%Z -> find f l = None -> findIndex_from f l i = (-1)%Z.
Proof.
  induction l as [|x t IH]; intros i Hi Hfind; simpl in *.
  - reflexivity.
  - destruct (f x); [discriminate|]. apply IH; [lia | exact Hfind].
Qed.

Lemma findIndex_from_some {A : Type} (f : A -> bool) (l : list A) :
  forall (i : Z) (x : A),
    (0 <= i)%Z ->
    find f l = Some x ->
    (i <= findIndex_from f l i)%Z
    /\ nth_error l (Z.to_nat (findIndex_from f l i - i)) = Some x.
Proof.
  induction l as [|y t IH]; intros i x Hi Hfind; simpl in *.
  - discriminate.
  - destruct (f y).
    + injection Hfind as ->. split; [lia|].
      replace (i - i)%Z with 0%Z by lia. reflexivity.
    + destruct (IH (i + 1)%Z x ltac:(lia) Hfind) as [Hle Hnth].
      split; [lia|].
      replace (Z.to_nat (findIndex_from f t (i + 1) - i))
        with (S (Z.to_nat (findIndex_from f t (i + 1) - (i + 1)))) by lia.
      exact Hnth.
Qed.

(** [findIndex] answers [-1] exactly when no element passes the test. *)
Lemma findIndex_none {A : Type} (f : A -> bool) (l : list A) :
  find f l = None -> (findIndex f l =? -1)%Z = true.
Proof.
  intro H. unfold findIndex. rewrite (findIndex_from_none f l 0%Z); [reflexivity|lia|exact H].
Qed.

(** Otherwise it points at the first element that passes. *)
Lemma findIndex_some {A : Type} (f : A -> bool) (l : list A) (x : A) :
  find f l = Some x ->
  (findIndex f l =? -1)%Z = false /\ index l (findIndex f l) = Some x.
Proof.
  intro H. unfold findIndex, index.
  destruct (findIndex_from_some f l 0%Z x ltac:(lia) H) as [Hle Hnth].
  split.
  - apply Z.eqb_neq. lia.
  - replace (findIndex_from f l 0 <? 0)%Z with false
      by (symmetry; apply Z.ltb_ge; exact Hle).
    rewrite Z.sub_0_r in Hnth. exact Hnth.
Qed.


(** A [then] callback followed by [catch(console.error)] never throws: an
    exception of the callback ends in the console. *)
Lemma then_catch_console_error {A B : Type} (v : A) (cb : A -> M B) (w : World) :
  (p <- then_ (Fulfilled v) cb ;; _ <- catch_ p console_error ;; ret tt) w
  = match cb v w with
    | (Returned _, w1) => (Returned tt, w1)
    | (Thrown e, w1) => (Returned tt, logged [EvConsoleError e] w1)
    end.
Proof.
  unfold then_, catch_, bind, ret, console_error, emit, logged.
  destruct (cb v w) as [[b|e] w1]; reflexivity.
Qed.

Lemma run_job_settles (j : DecorationJob) (w : World) :
  run_job j w
  = match decorationCallback (job_codeLens j) (job_outdated j) w with
    | (Returned _, w1) => (Returned tt, w1)
    | (Thrown e, w1) => (Returned tt, logged [EvConsoleError e] w1)
    end.
Proof. unfold run_job. apply then_catch_console_error. Qed.


Lemma callback_cached (codeLens : CodeLens) (outdated : list OutdatedEntry)
  (found : OutdatedEntry) (m : Meta) (t : Tag) (w : World) :
  find (same_name codeLens) outdated = Some found ->
  pkg_meta (package codeLens) = Some m ->
  meta_tag m = Some t ->
  exists delta : list Event,
    decorationCallback codeLens outdated w = (Returned tt, logged delta w)
    /\ rendered delta
       = [decoration_for_entry codeLens (current found) (tag_version t)].
Proof.
  intros Hfind Hmeta Htag. unfold decorationCallback.
  change (fun entry : OutdatedEntry => entry_name entry =? pkg_name (package codeLens))
    with (same_name codeLens).
  destruct (findIndex_some _ _ _ Hfind) as [Hidx Hat].
  rewrite Hidx, Hat.
  unfold meta_tag_version. rewrite Hmeta, Htag.
  unfold decoration_for_entry, decoration_by_comparison.
  unfold_ops. unfold logged. simpl.
  destruct (truthy (current found)); simpl.
  - destruct (strict_eq (current found) (tag_version t)); simpl.
    + destruct (matchesLatestVersion codeLens); simpl.
      * eexists. rewrite <- ?app_assoc. split; reflexivity.
      * destruct (matchesPrereleaseVersion codeLens); simpl;
          eexists; rewrite <- ?app_assoc; split; reflexivity.
    + eexists. split; reflexivity.
  - eexists. split; reflexivity.
Qed.

(** Without metadata the callback throws before anything is rendered. *)
Lemma callback_without_meta (codeLens : CodeLens) (outdated : list OutdatedEntry)
  (w : World) :
  pkg_meta (package codeLens) = None ->
  decorationCallback codeLens outdated w
  = (Thrown (TypeError "Cannot read property 'tag' of undefined"), w)
  \/ decorationCallback codeLens outdated w
     = (Thrown (TypeError "Cannot read property 'current' of undefined"), w).
Proof.
  intro Hmeta. unfold decorationCallback, meta_tag_version. rewrite Hmeta.
  destruct (findIndex _ outdated =? -1)%Z; [left; reflexivity|].
  destruct (index outdated _); [left|right]; reflexivity.
Qed.

Lemma logged_logged (a b : list Event) (w : World) :
  logged b (logged a w) = logged (a ++ b) w.
Proof. unfold logged. simpl. rewrite app_assoc. reflexivity. Qed.

Lemma logged_nothing (w : World) : logged [] w = w.
Proof. destruct w. unfold logged. simpl. rewrite app_nil_r. reflexivity. Qed.

(** What the callback does is fixed by the lens and the array it was
    given: the same outcome and the same events in every world. *)
Lemma callback_events (codeLens : CodeLens) (outdated : list OutdatedEntry) :
  exists (o : Outcome unit) (delta : list Event),
    forall w : World,
      decorationCallback codeLens outdated w = (o, logged delta w).
Proof.
  unfold decorationCallback, meta_tag_version.
  destruct (findIndex _ outdated =? -1)%Z;
    [|destruct (index outdated _) as [found|]];
    try (destruct (pkg_meta (package codeLens)) as [m|];
         [destruct (meta_tag m) as [t|]|]);
    unfold_ops; simpl;
    try (destruct (truthy (current found)); simpl;
         [destruct (strict_eq (current found) (tag_version t)); simpl;
          [destruct (matchesLatestVersion codeLens); simpl;
           [|destruct (matchesPrereleaseVersion codeLens); simpl]|]|]).
  all: first
    [ do 2 eexists; intro w; unfold logged; simpl;
      rewrite <- ?app_assoc; reflexivity
    | eexists; exists []; intro w; rewrite logged_nothing; reflexivity ].
Qed.

Lemma run_job_events (j : DecorationJob) :
  exists delta : list Event,
    forall w : World, run_job j w = (Returned tt, logged delta w).
Proof.
  destruct (callback_events (job_codeLens j) (job_outdated j))
    as ([u|e] & delta & Hrun).
  - exists delta. intro w. rewrite run_job_settles, Hrun. reflexivity.
  - exists (delta ++ [EvConsoleError e]). intro w.
    rewrite run_job_settles, Hrun, logged_logged. reflexivity.
Qed.

Lemma run_jobs_events (jobs : list DecorationJob) :
  exists delta : list Event,
    forall w : World, run_jobs jobs w = (Returned tt, logged delta w).
Proof.
  induction jobs as [|j rest [rest_delta IH]]; simpl.
  - exists []. intro w. rewrite logged_nothing. reflexivity.
  - destruct (run_job_events j) as [delta Hj].
    exists (delta ++ rest_delta). intro w.
    unfold bind. rewrite Hj, IH, logged_logged. reflexivity.
Qed.

(** A test that finds something does not answer [-1]. *)
Lemma findIndex_found {A : Type} (f : A -> bool) (l : list A) :
  (findIndex f l =? -1)%Z = false ->
  exists x : A, find f l = Some x.
Proof.
  intro H. destruct (find f l) as [x|] eqn:Hfind.
  - exists x. reflexivity.
  - rewrite (findIndex_none f l Hfind) in H. discriminate.
Qed.

(** The callback either renders exactly one decoration and writes no
    error, or throws without having rendered; it throws exactly when the
    tag cannot be read. *)
Lemma callback_outcome (codeLens : CodeLens) (outdated : list OutdatedEntry)
  (w : World) :
  (has_tag codeLens = true
   /\ exists delta : list Event,
        decorationCallback codeLens outdated w = (Returned tt, logged delta w)
        /\ length (rendered delta) = 1
        /\ console_errors delta = [])
  \/ (has_tag codeLens = false
      /\ exists msg : string,
           decorationCallback codeLens outdated w = (Thrown (TypeError msg), w)).
Proof.
  unfold has_tag, decorationCallback, meta_tag_version.
  destruct (findIndex _ outdated =? -1)%Z eqn:Hidx.
  - destruct (pkg_meta (package codeLens)) as [m|];
      [destruct (meta_tag m) as [t|]|].
    + left. split; [reflexivity|]. eexists. split; [reflexivity|].
      split; reflexivity.
    + right. split; [reflexivity|]. eexists. reflexivity.
    + right. split; [reflexivity|]. eexists. reflexivity.
  - destruct (findIndex_found _ _ Hidx) as [found Hfind].
    destruct (findIndex_some _ _ _ Hfind) as [_ Hat]. rewrite Hat.
    destruct (pkg_meta (package codeLens)) as [m|];
      [destruct (meta_tag m) as [t|]|].
    + left. split; [reflexivity|].
      unfold_ops. unfold logged. simpl.
      destruct (truthy (current found)); simpl;
        [destruct (strict_eq (current found) (tag_version t)); simpl;
         [destruct (matchesLatestVersion codeLens); simpl;
          [|destruct (matchesPrereleaseVersion codeLens); simpl]|]|].
      all: eexists; rewrite <- ?app_assoc;
        (split; [reflexivity|]); split; reflexivity.
    + right. split; [reflexivity|]. eexists. reflexivity.
    + right. split; [reflexivity|]. eexists. reflexivity.
Qed.


Section Decorations.

Variable npmPackageDirExists : string -> string -> bool.

(** With an empty queue, [generateDecoration] and the event loop amount to
    the directory test followed by the callback on the cache of that
    moment. *)
Lemma generateDecoration_settled_run (codeLens : CodeLens) (w : World) :
  microtasks w = [] ->
  generateDecoration_settled npmPackageDirExists codeLens w
  = let asked :=
      logged [EvPackageDirExists (_documentPath (provider w))
                (pkg_name (package codeLens))] w in
    if npmPackageDirExists (_documentPath (provider w)) (pkg_name (package codeLens))
    then
      match decorationCallback codeLens (_outdatedCache (provider w)) asked with
      | (Returned _, w1) => (Returned tt, w1)
      | (Thrown e, w1) => (Returned tt, logged [EvConsoleError e] w1)
      end
    else
      (Returned tt, logged [EvRender (MissingDecoration (replaceRange codeLens))] asked).
Proof.
  intro Hq. split_world w. simpl in Hq. subst queue.
  unfold generateDecoration_settled, generateDecoration, drain.
  unfold_ops. unfold logged. cbn -[run_job decorationCallback].
  destruct (npmPackageDirExists path (pkg_name (package codeLens)));
    cbn -[run_job decorationCallback].
  - unfold bind, ret. rewrite run_job_settles. cbn -[decorationCallback].
    match goal with
    | |- context [decorationCallback ?l ?o ?w] =>
        destruct (decorationCallback l o w) as [[u|e] w1]
    end; reflexivity.
  - reflexivity.
Qed.

(** C3 (amended): for a code lens whose package has metadata with a tag,
    whose install directory exists and whose name is in the outdated cache
    ([found] is the first entry with that name), exactly one decoration is
    rendered, chosen from the installed version [current] recorded in the
    entry and the tag version of the metadata: "missing" when [current] is
    absent or empty; otherwise "installed" when the two are equal and
    [matchesLatestVersion] holds, "prerelease installed" when they are
    equal and [matchesPrereleaseVersion] holds, "outdated" when they are
    equal and neither holds, and "needs update" carrying [current] when
    they differ. *)
Theorem decoration_for_cached_package
  (codeLens : CodeLens) (w : World) (found : OutdatedEntry) (m : Meta) (t : Tag) :
  microtasks w = [] ->
  npmPackageDirExists (_documentPath (provider w)) (pkg_name (package codeLens))
    = true ->
  find (same_name codeLens) (_outdatedCache (provider w)) = Some found ->
  pkg_meta (package codeLens) = Some m ->
  meta_tag m = Some t ->
  exists (w' : World) (delta : list Event),
    generateDecoration_settled npmPackageDirExists codeLens w = (Returned tt, w')
    /\ log w' = log w ++ delta
    /\ rendered delta
       = [if truthy (current found)
          then decoration_by_comparison codeLens (current found) (tag_version t)
          else MissingDecoration (replaceRange codeLens)].
Proof.
  intros Hqueue Hdir Hfind Hmeta Htag.
  rewrite (generateDecoration_settled_run codeLens w Hqueue). cbv zeta.
  rewrite Hdir.
  destruct (callback_cached codeLens _ found m t
              (logged [EvPackageDirExists (_documentPath (provider w))
                         (pkg_name (package codeLens))] w)
              Hfind Hmeta Htag) as [delta [Hrun Hrendered]].
  rewrite Hrun.
  eexists. exists (EvPackageDirExists (_documentPath (provider w))
                     (pkg_name (package codeLens)) :: delta).
  split; [reflexivity|]. split.
  - unfold logged. simpl. rewrite <- app_assoc. reflexivity.
  - simpl. exact Hrendered.
Qed.


End Decorations.

Lemma decoration_for_cached_package_witness :
  exists (w' : World) (delta : list Event),
    generateDecoration_settled Sample.installed Sample.lodash
      (Sample.world [Sample.lodash_behind]) = (Returned tt, w')
    /\ log w' = log (Sample.world [Sample.lodash_behind]) ++ delta
    /\ rendered delta
       = [NeedsUpdateDecoration Sample.range (Str "4.17.15")].
Proof.
  apply (decoration_for_cached_package Sample.installed Sample.lodash
           (Sample.world [Sample.lodash_behind]) Sample.lodash_behind
           Sample.npm_meta {| tag_version := Str "4.17.21" |});
    reflexivity.
Defined.

(** C3, as stated, fails on an entry without a recorded version: the entry
    differs from the tag version, the table of the claim asks for "needs
    update", and the code renders "missing". *)
Lemma cached_without_current_renders_missing :
  rendered (log (snd (generateDecoration_settled Sample.installed Sample.lodash
                        (Sample.world [Sample.lodash_not_installed]))))
  = [MissingDecoration Sample.range]
  /\ decoration_by_comparison Sample.lodash
       (current Sample.lodash_not_installed) (Str "4.17.21")
     = NeedsUpdateDecoration Sample.range Undefined
  /\ rendered (log (snd (generateDecoration_settled Sample.installed Sample.lodash
                           (Sample.world [Sample.lodash_not_installed]))))
     <> [decoration_by_comparison Sample.lodash
           (current Sample.lodash_not_installed) (Str "4.17.21")].
Proof.
  split; [reflexivity|]. split; [reflexivity|].
  vm_compute. discriminate.
Qed.



(** ** Command resolution *)

Ltac close_run :=
  eexists; eexists;
  first
    [ exists (@nil DecorationJob);
      cbn [log microtasks provider settings];
      rewrite <- ?app_assoc, ?app_nil_r, ?andb_false_r; repeat split; reflexivity
    | eexists;
      cbn [log microtasks provider settings];
      rewrite <- ?app_assoc, ?andb_false_r; repeat split; reflexivity ].

Ltac first_wins b := destruct b; simpl; [close_run|].

Section Commands.

Variable npmPackageDirExists : string -> string -> bool.

(** One run of lines 79 to 124: the command, the events and the queued
    reaction. *)
Lemma evaluateRegistryPackage_run (codeLens : CodeLens) (w : World) :
  exists (w' : World) (delta : list Event) (jobs : list DecorationJob),
    evaluateRegistryPackage npmPackageDirExists codeLens w
      = (Returned (first_match codeLens priority), w')
    /\ log w' = log w ++ EvPredicate PackageNotFound :: delta
    /\ microtasks w' = microtasks w ++ jobs
    /\ provider w' = provider w
    /\ settings w' = settings w
    /\ predicates_of (EvPredicate PackageNotFound :: delta)
       = tested codeLens (map fst priority)
    /\ decoration_started delta
       = enabled (showDependencyStatuses (settings w))
         && negb (packageNotFound codeLens || packageNotSupported codeLens
                  || isTaggedVersion codeLens)
    /\ length (rendered delta) + length jobs
       = (if decoration_started delta then 1 else 0).
Proof.
  split_world w.
  unfold evaluateRegistryPackage, generateDecoration. unfold_ops. simpl.
  first_wins (packageNotFound codeLens).
  first_wins (packageNotSupported codeLens).
  first_wins (isTaggedVersion codeLens).
  destruct (enabled statuses); simpl;
    [destruct (npmPackageDirExists path (pkg_name (package codeLens))); simpl|].
  all: first_wins (isInvalidVersion codeLens).
  all: first_wins (versionMatchNotFound codeLens).
  all: first_wins (matchesPrereleaseVersion codeLens).
  all: first_wins (matchesLatestVersion codeLens).
  all: first_wins (satisfiesLatestVersion codeLens).
  all: destruct (isFixedVersion codeLens); simpl; close_run.
Qed.

Lemma evaluateCodeLens_registry (codeLens : CodeLens) (w : World) :
  meta_type_is codeLens "github" = false ->
  meta_type_is codeLens "file" = false ->
  evaluateCodeLens npmPackageDirExists codeLens w
  = evaluateRegistryPackage npmPackageDirExists codeLens w.
Proof.
  unfold meta_type_is, evaluateCodeLens.
  destruct (pkg_meta (package codeLens)) as [m|]; [|reflexivity].
  intros -> ->. reflexivity.
Qed.

(** C1: when the metadata type is neither "github" nor "file",
    [evaluateCodeLens] returns (it never throws) the command of the first
    predicate that holds in the order packageNotFound, packageNotSupported,
    isTaggedVersion, isInvalidVersion, versionMatchNotFound,
    matchesPrereleaseVersion, matchesLatestVersion, satisfiesLatestVersion,
    isFixedVersion, or else the generic version command built from the
    declared version and the tagged version; the predicates it calls are,
    in this order, those up to and including the first that holds. *)
Theorem evaluateCodeLens_priority_order (codeLens : CodeLens) (w : World) :
  meta_type_is codeLens "github" = false ->
  meta_type_is codeLens "file" = false ->
  exists (w' : World) (delta : list Event),
    evaluateCodeLens npmPackageDirExists codeLens w
      = (Returned (first_match codeLens priority), w')
    /\ log w' = log w ++ delta
    /\ predicates_of delta = tested codeLens (map fst priority).
Proof.
  intros Hgithub Hfile.
  rewrite (evaluateCodeLens_registry codeLens w Hgithub Hfile).
  destruct (evaluateRegistryPackage_run codeLens w)
    as (w' & delta & jobs & Hrun & Hlog & _ & _ & _ & Hasked & _).
  exists w', (EvPredicate PackageNotFound :: delta).
  repeat split; assumption.
Qed.




(** C10: on a lens whose package has no metadata, [evaluateCodeLens] does
    not throw; the first thing it does is to call [packageNotFound], and
    it returns the command of the priority list. *)
Theorem evaluateCodeLens_without_meta (codeLens : CodeLens) (w : World) :
  pkg_meta (package codeLens) = None ->
  exists (w' : World) (delta : list Event),
    evaluateCodeLens npmPackageDirExists codeLens w
      = (Returned (first_match codeLens priority), w')
    /\ log w' = log w ++ EvPredicate PackageNotFound :: delta.
Proof.
  intro Hmeta.
  rewrite evaluateCodeLens_registry
    by (unfold meta_type_is; rewrite Hmeta; reflexivity).
  destruct (evaluateRegistryPackage_run codeLens w)
    as (w' & delta & jobs & Hrun & Hlog & _).
  exists w', delta. split; assumption.
Qed.

End Commands.

Lemma evaluateCodeLens_priority_order_witness :
  exists (w' : World) (delta : list Event),
    evaluateCodeLens Sample.installed Sample.lodash (Sample.world [])
      = (Returned (SatisfiesLatestVersionCommand Sample.lodash), w')
    /\ log w' = log (Sample.world []) ++ delta
    /\ predicates_of delta
       = [PackageNotFound; PackageNotSupported; IsTaggedVersion;
          IsInvalidVersion; VersionMatchNotFound; MatchesPrereleaseVersion;
          MatchesLatestVersion; SatisfiesLatestVersion].
Proof.
  apply (evaluateCodeLens_priority_order Sample.installed Sample.lodash
           (Sample.world [])); reflexivity.
Defined.

Lemma evaluateCodeLens_without_meta_witness :
  exists (w' : World) (delta : list Event),
    evaluateCodeLens Sample.installed Sample.lodash_without_meta (Sample.world [])
      = (Returned (SatisfiesLatestVersionCommand Sample.lodash_without_meta), w')
    /\ log w' = log (Sample.world []) ++ EvPredicate PackageNotFound :: delta.
Proof.
  apply (evaluateCodeLens_without_meta Sample.installed
           Sample.lodash_without_meta (Sample.world [])); reflexivity.
Defined.



(** ** Lens requests *)

(** The event loop never throws: every job ends in its own [catch]. *)
Lemma run_jobs_returns (jobs : list DecorationJob) :
  forall w : World, exists w' : World, run_jobs jobs w = (Returned tt, w').
Proof.
  induction jobs as [|j rest IH]; intro w; simpl.
  - exists w. reflexivity.
  - unfold bind. rewrite run_job_settles.
    destruct (decorationCallback (job_codeLens j) (job_outdated j) w)
      as [[u|e] w1]; apply IH.
Qed.

Lemma generations_app (a b : list Event) :
  generations (a ++ b) = generations a + generations b.
Proof.
  induction a as [|e a IH]; simpl; [reflexivity|].
  destruct e; simpl; rewrite IH; reflexivity.
Qed.

(** A decoration reaction only logs, and what it logs is no lens
    generation. *)
Lemma run_job_effect (j : DecorationJob) :
  exists delta : list Event,
    generations delta = 0
    /\ forall w : World, run_job j w = (Returned tt, logged delta w).
Proof.
  assert (Hcallback :
            exists (o : Outcome unit) (delta : list Event),
              generations delta = 0
              /\ forall w : World,
                   decorationCallback (job_codeLens j) (job_outdated j) w
                   = (o, logged delta w)).
  { generalize (job_codeLens j) (job_outdated j). intros codeLens outdated.
    unfold decorationCallback, meta_tag_version.
    destruct (findIndex _ outdated =? -1)%Z;
      [|destruct (index outdated _) as [found|]];
      try (destruct (pkg_meta (package codeLens)) as [m|];
           [destruct (meta_tag m) as [t|]|]);
      unfold_ops; simpl;
      try (destruct (truthy (current found)); simpl;
           [destruct (strict_eq (current found) (tag_version t)); simpl;
            [destruct (matchesLatestVersion codeLens); simpl;
             [|destruct (matchesPrereleaseVersion codeLens); simpl]|]|]).
    all: first
      [ do 2 eexists; split;
        [|intro w; unfold logged; simpl; rewrite <- ?app_assoc; reflexivity];
        reflexivity
      | eexists; exists []; split; [reflexivity|];
        intro w; rewrite logged_nothing; reflexivity ]. }
  destruct Hcallback as ([u|e] & delta & Hnone & Hrun).
  - exists delta. split; [exact Hnone|]. intro w.
    rewrite run_job_settles, Hrun. reflexivity.
  - exists (delta ++ [EvConsoleError e]). split.
    + rewrite generations_app, Hnone. reflexivity.
    + intro w. rewrite run_job_settles, Hrun, logged_logged. reflexivity.
Qed.

(** What reactions of other work do between two reactions of a request:
    they log, the last store among them decides the cache, a lens
    generation among them lowers [inProgress], and they never throw. *)
Lemma run_reactions_effect (rs : list Reaction) :
  forall w : World,
    exists (w' : World) (delta : list Event),
      run_reactions rs w = (Returned tt, w')
      /\ log w' = log w ++ delta
      /\ generations delta = foreign_generations rs
      /\ (rs = [] -> delta = [])
      /\ _outdatedCache (provider w') = stored rs (_outdatedCache (provider w))
      /\ (inProgress (settings w) = false -> inProgress (settings w') = false)
      /\ same_frame w w'.
Proof.
  unfold same_frame.
  induction rs as [|r rest IH]; intro w.
  - exists w, []. simpl. rewrite app_nil_r. unfold ret. repeat split.
    intro H; exact H.
  - destruct r as [results|label err| |j]; simpl; unfold bind.
    + destruct (IH (with_cache results w))
        as (w' & delta & Hrun & Hlog & Hgen & _ & Hcache & Hprogress & Hframe).
      exists w', delta. unfold set_outdatedCache.
      change {| provider := {| _outdatedCache := results;
                               _documentPath := _documentPath (provider w) |};
                settings := settings w; log := log w;
                microtasks := microtasks w |}
        with (with_cache results w).
      rewrite Hrun. repeat split; try assumption; try apply Hframe.
      discriminate.
    + destruct (IH (logged [EvConsoleLog label err] w))
        as (w' & delta & Hrun & Hlog & Hgen & _ & Hcache & Hprogress & Hframe).
      exists w', (EvConsoleLog label err :: delta). unfold emit.
      change {| provider := provider w; settings := settings w;
                log := log w ++ [EvConsoleLog label err];
                microtasks := microtasks w |}
        with (logged [EvConsoleLog label err] w).
      rewrite Hrun. simpl in Hlog. rewrite <- app_assoc in Hlog.
      repeat split; try assumption; try apply Hframe.
      discriminate.
    + destruct (IH (logged [EvGenerateCodeLenses (_outdatedCache (provider w))]
                      (with_inProgress false w)))
        as (w' & delta & Hrun & Hlog & Hgen & _ & Hcache & Hprogress & Hframe).
      exists w', (EvGenerateCodeLenses (_outdatedCache (provider w)) :: delta).
      unfold set_inProgress, get_provider, emit, bind. simpl.
      change {| provider := provider w;
                settings :=
                  {| showVersionLenses := showVersionLenses (settings w);
                     showDependencyStatuses :=
                       showDependencyStatuses (settings w);
                     inProgress := false |};
                log := log w ++ [EvGenerateCodeLenses
                                   (_outdatedCache (provider w))];
                microtasks := microtasks w |}
        with (logged [EvGenerateCodeLenses (_outdatedCache (provider w))]
                (with_inProgress false w)).
      rewrite Hrun. simpl in Hlog. rewrite <- app_assoc in Hlog.
      repeat split; try assumption; try apply Hframe.
      * simpl. rewrite Hgen. reflexivity.
      * discriminate.
      * intros _. apply Hprogress. reflexivity.
    + destruct (run_job_effect j) as (dj & Hnone & Hjob).
      destruct (IH (logged dj w))
        as (w' & delta & Hrun & Hlog & Hgen & _ & Hcache & Hprogress & Hframe).
      exists w', (dj ++ delta). rewrite Hjob, Hrun.
      simpl in Hlog. rewrite <- app_assoc in Hlog.
      repeat split; try assumption; try apply Hframe.
      * rewrite generations_app, Hnone, Hgen. reflexivity.
      * discriminate.
Qed.

Lemma run_reactions_returns (rs : list Reaction) (w : World) :
  run_reactions rs w = (Returned tt, snd (run_reactions rs w)).
Proof.
  destruct (run_reactions_effect rs w) as (w' & delta & Hrun & _).
  rewrite Hrun. reflexivity.
Qed.

Lemma stored_app (a b : list Reaction) (cache : list OutdatedEntry) :
  stored (a ++ b) cache = stored b (stored a cache).
Proof.
  revert cache. induction a as [|r a IH]; intro cache; simpl; [reflexivity|].
  destruct r; apply IH.
Qed.

(** What the reactions of [updateOutdated] do with each outcome of the
    query, with what runs between the store and the [catch]. *)
Lemma updateOutdated_reactions_run (queried : Settled (list OutdatedEntry))
  (others : Interleaving) (w : World) :
  updateOutdated_reactions queried others w
  = match queried with
    | Fulfilled results =>
        (Returned (Fulfilled (Some results)),
         snd (run_reactions (after_store others) (with_cache results w)))
    | Rejected e =>
        (Returned (Fulfilled None),
         logged [EvConsoleLog (Some "npmGetOutdated") e]
           (snd (run_reactions (after_store others) w)))
    end.
Proof.
  unfold updateOutdated_reactions.
  destruct queried as [results|e]; unfold then_, bind; unfold_ops.
  - change {| provider := {| _outdatedCache := results;
                             _documentPath := _documentPath (provider w) |};
              settings := settings w; log := log w;
              microtasks := microtasks w |}
      with (with_cache results w).
    rewrite run_reactions_returns. reflexivity.
  - rewrite run_reactions_returns. reflexivity.
Qed.
Section Requests.

Variables Node DependencyNode PackageCollection : Type.
Variable dirname : string -> string.
Variable jsonParse : string -> option (JsonDocument Node).
Variable npmDependencyProperties : list string.
Variable extractDependencyNodes : Node -> list string -> list DependencyNode.
Variable parseDependencyNodes : list DependencyNode -> PackageCollection.
Variable generateCodeLenses :
  PackageCollection -> TextDocument -> Settled (list CodeLens).
Variable npmPackageDirExists : string -> string -> bool.

Local Abbreviation provide :=
  (provideCodeLenses Node DependencyNode PackageCollection dirname jsonParse
     npmDependencyProperties extractDependencyNodes parseDependencyNodes
     generateCodeLenses).

Local Abbreviation reactions :=
  (provideCodeLenses_reactions PackageCollection generateCodeLenses).

Local Abbreviation outcome :=
  (lenses_result PackageCollection generateCodeLenses).

Local Abbreviation complaints :=
  (lenses_events PackageCollection generateCodeLenses).

(** One run of the reactions of [provideCodeLenses] behind the promise of
    [updateOutdated], among the reactions of other work. *)
Lemma provideCodeLenses_reactions_run (packageCollection : PackageCollection)
  (document : TextDocument) (queried : Settled (list OutdatedEntry))
  (others : Interleaving) (w : World) :
  exists (w3 : World) (g1 g2 g3 : list Event),
    reactions updateOutdated_reactions packageCollection document queried
      others w
    = (Returned (outcome packageCollection document), w3)
    /\ log w3
       = log w ++ g1 ++ refresh_events queried ++ g2
         ++ EvGenerateCodeLenses
              (stored (after_store others ++ after_refresh others)
                 (refreshed_cache queried (_outdatedCache (provider w))))
            :: g3 ++ complaints packageCollection document
    /\ (generations g1 = foreign_generations (after_store others)
        /\ generations g2 = foreign_generations (after_refresh others)
        /\ generations g3 = foreign_generations (after_generation others))
    /\ ((after_store others = [] -> g1 = [])
        /\ (after_refresh others = [] -> g2 = [])
        /\ (after_generation others = [] -> g3 = []))
    /\ _outdatedCache (provider w3)
       = stored (after_store others ++ after_refresh others
                 ++ after_generation others)
           (refreshed_cache queried (_outdatedCache (provider w)))
    /\ inProgress (settings w3) = false
    /\ same_frame w w3.
Proof.
  unfold provideCodeLenses_reactions. unfold bind at 1.
  rewrite updateOutdated_reactions_run.
  set (start := match queried with
                | Fulfilled results => with_cache results w
                | Rejected _ => w
                end).
  destruct (run_reactions_effect (after_store others) start)
    as (w1 & g1 & Hrun1 & Hlog1 & Hgen1 & Hnil1 & Hcache1 & _ & Hframe1).
  set (settled := logged (refresh_events queried) w1).
  destruct (run_reactions_effect (after_refresh others) settled)
    as (w2 & g2 & Hrun2 & Hlog2 & Hgen2 & Hnil2 & Hcache2 & _ & Hframe2).
  set (generated :=
         logged [EvGenerateCodeLenses (_outdatedCache (provider w2))]
           (with_inProgress false w2)).
  destruct (run_reactions_effect (after_generation others) generated)
    as (w3 & g3 & Hrun3 & Hlog3 & Hgen3 & Hnil3 & Hcache3 & Hprogress3 & Hframe3).
  exists (logged (complaints packageCollection document) w3), g1, g2, g3.
  assert (Hstart : _outdatedCache (provider start)
                   = refreshed_cache queried (_outdatedCache (provider w))
                   /\ log start = log w /\ same_frame w start).
  { unfold start, same_frame. destruct queried; simpl; repeat split. }
  destruct Hstart as (Hcache0 & Hlog0 & Hframe0).
  assert (Hat : _outdatedCache (provider w2)
                = stored (after_store others ++ after_refresh others)
                    (refreshed_cache queried (_outdatedCache (provider w)))).
  { rewrite Hcache2, stored_app. unfold settled. simpl.
    rewrite Hcache1, Hcache0. reflexivity. }
  split.
  - assert (Hfirst :
              (match queried with
               | Fulfilled results =>
                   (Returned (Fulfilled (Some results)),
                    snd (run_reactions (after_store others)
                           (with_cache results w)))
               | Rejected e =>
                   (Returned (Fulfilled None),
                    logged [EvConsoleLog (Some "npmGetOutdated") e]
                      (snd (run_reactions (after_store others) w)))
               end)
              = (Returned (Fulfilled
                             (match queried with
                              | Fulfilled results => Some results
                              | Rejected _ => None
                              end)), settled)).
    { unfold settled, start in *. destruct queried as [results|e];
        rewrite Hrun1; simpl; [rewrite logged_nothing|]; reflexivity. }
    rewrite Hfirst. unfold bind at 1. rewrite Hrun2.
    unfold then_, catch_, bind; unfold_ops.
    change {| provider := provider w2;
              settings :=
                {| showVersionLenses := showVersionLenses (settings w2);
                   showDependencyStatuses := showDependencyStatuses (settings w2);
                   inProgress := false |};
              log := log w2;
              microtasks := microtasks w2 |}
      with (with_inProgress false w2).
    unfold lenses_result, lenses_events.
    destruct (generateCodeLenses packageCollection document) as [lenses|e'];
      simpl;
      change {| provider := provider w2;
                settings :=
                  {| showVersionLenses := showVersionLenses (settings w2);
                     showDependencyStatuses :=
                       showDependencyStatuses (settings w2);
                     inProgress := false |};
                log := log w2 ++ [EvGenerateCodeLenses
                                    (_outdatedCache (provider w2))];
                microtasks := microtasks w2 |}
        with generated;
      rewrite Hrun3; [rewrite logged_nothing|]; reflexivity.
  - split; [|split; [repeat split; assumption|split;
             [repeat split; assumption|split; [|split]]]].
    + unfold logged at 1. cbn [log]. rewrite Hlog3. unfold generated.
      cbn [logged log with_inProgress]. rewrite Hlog2. unfold settled.
      cbn [logged log]. rewrite Hlog1, Hlog0, Hat.
      rewrite <- !app_assoc. reflexivity.
    + unfold logged. cbn [provider]. rewrite Hcache3. unfold generated.
      cbn [logged with_inProgress provider]. rewrite Hat.
      rewrite app_assoc, (stored_app _ (after_generation others)).
      reflexivity.
    + unfold logged. cbn [settings]. apply Hprogress3. reflexivity.
    + unfold same_frame in *. unfold logged. cbn [provider settings microtasks].
      destruct Hframe0 as (P0 & V0 & S0 & Q0).
      destruct Hframe1 as (P1 & V1 & S1 & Q1).
      destruct Hframe2 as (P2 & V2 & S2 & Q2).
      destruct Hframe3 as (P3 & V3 & S3 & Q3).
      unfold generated, settled in *.
      cbn [logged with_inProgress provider settings microtasks
           showVersionLenses showDependencyStatuses] in *.
      repeat split; congruence.
Qed.

(** A request with the feature switched off. *)
Lemma provideCodeLenses_disabled (document : TextDocument)
  (token : CancellationToken) (w : World) :
  showVersionLenses (settings w) = Some false ->
  provide document token w = (Returned ResultUndefined, w).
Proof.
  intro Hoff. unfold provideCodeLenses. unfold_ops. rewrite Hoff. reflexivity.
Qed.

(** A request for a document that does not parse. *)
Lemma provideCodeLenses_unparsable (document : TextDocument)
  (token : CancellationToken) (w : World) :
  is_false (showVersionLenses (settings w)) = false ->
  parse_failed Node (jsonParse (getText document)) = true ->
  provide document token w
  = (Returned (ResultArray []),
     logged [EvJsonParse (getText document)]
       (with_path (dirname (fsPath document)) w)).
Proof.
  intros Hon Hfailed. unfold provideCodeLenses. unfold_ops.
  rewrite Hon. simpl. rewrite Hfailed. reflexivity.
Qed.

(** A request that reaches the refresh stage. *)
Lemma provideCodeLenses_refreshing (document : TextDocument)
  (token : CancellationToken) (w : World) :
  is_false (showVersionLenses (settings w)) = false ->
  parse_failed Node (jsonParse (getText document)) = false ->
  exists tree : Node,
    provide document token w
    = (Returned
         (ResultPromise
            (reactions updateOutdated_reactions
               (parseDependencyNodes
                  (extractDependencyNodes tree npmDependencyProperties))
               document)),
       logged [EvJsonParse (getText document); EvExtractDependencyNodes;
               EvParseDependencyNodes;
               EvNpmGetOutdated (dirname (fsPath document))]
         (with_inProgress true (with_path (dirname (fsPath document)) w))).
Proof.
  intros Hon Hparsed. unfold provideCodeLenses, updateOutdated. unfold_ops.
  rewrite Hon. simpl. rewrite Hparsed.
  unfold parse_failed in Hparsed.
  destruct (jsonParse (getText document)) as [[[tree|] errors]|];
    try discriminate.
  exists tree. unfold logged, with_inProgress, with_path. simpl.
  rewrite <- !app_assoc. reflexivity.
Qed.

(** The test of the code says what the specification lists: no result, no
    root node, or a validation error. *)
Lemma parse_failed_cases (jsonDoc : option (JsonDocument Node)) :
  parse_failed Node jsonDoc = true
  <-> jsonDoc = None
      \/ exists d : JsonDocument Node,
           jsonDoc = Some d /\ (root d = None \/ validationErrors d <> []).
Proof.
  unfold parse_failed. destruct jsonDoc as [[[tree|] errors]|]; simpl.
  - destruct errors as [|e errors]; simpl; split.
    + discriminate.
    + intros [H|(d & Hd & [H|H])]; try discriminate.
      * injection Hd as <-. discriminate.
      * injection Hd as <-. simpl in H. contradiction.
    + intros _. right. eexists. split; [reflexivity|]. right. discriminate.
    + reflexivity.
  - split; [|reflexivity]. intros _. right. eexists. split; [reflexivity|].
    left. reflexivity.
  - split; [|reflexivity]. intros _. left. reflexivity.
Qed.

Lemma not_false_flag (f : Flag) : f <> Some false -> is_false f = false.
Proof. destruct f as [[|]|]; simpl; congruence. Qed.

Lemma is_false_flag (f : Flag) : is_false f = true -> f = Some false.
Proof. destruct f as [[|]|]; simpl; congruence. Qed.

(** A request hands back a promise only by reaching the refresh stage. *)
Lemma provideCodeLenses_promise (document : TextDocument)
  (token : CancellationToken) (w w1 : World)
  (chain : Pending (option (list CodeLens))) :
  provide document token w = (Returned (ResultPromise chain), w1) ->
  exists tree : Node,
    chain = reactions updateOutdated_reactions
              (parseDependencyNodes
                 (extractDependencyNodes tree npmDependencyProperties))
              document
    /\ w1 = logged [EvJsonParse (getText document); EvExtractDependencyNodes;
                    EvParseDependencyNodes;
                    EvNpmGetOutdated (dirname (fsPath document))]
              (with_inProgress true (with_path (dirname (fsPath document)) w)).
Proof.
  intro Hrun.
  destruct (is_false (showVersionLenses (settings w))) eqn:Hflag.
  - rewrite (provideCodeLenses_disabled document token w (is_false_flag _ Hflag))
      in Hrun.
    discriminate.
  - destruct (parse_failed Node (jsonParse (getText document))) eqn:Hparse.
    + rewrite (provideCodeLenses_unparsable document token w Hflag Hparse) in Hrun.
      discriminate.
    + destruct (provideCodeLenses_refreshing document token w Hflag Hparse)
        as [tree Htree].
      rewrite Htree in Hrun. injection Hrun as <- <-.
      exists tree. split; reflexivity.
Qed.

(** C2: with [showVersionLenses] false the request returns [undefined] and
    leaves the state and the log as they were; otherwise, when the parse
    gives no result, no root node, or at least one validation error, it
    returns the empty array, and the parse is the only collaborator called:
    no dependency extraction, no cache refresh, no lens generation. *)
Theorem no_lenses_when_disabled_or_unparsable (document : TextDocument)
  (token : CancellationToken) (w : World) :
  (showVersionLenses (settings w) = Some false ->
   provide document token w = (Returned ResultUndefined, w))
  /\ (showVersionLenses (settings w) <> Some false ->
      (jsonParse (getText document) = None
       \/ exists d : JsonDocument Node,
            jsonParse (getText document) = Some d
            /\ (root d = None \/ validationErrors d <> [])) ->
      exists w' : World,
        provide document token w = (Returned (ResultArray []), w')
        /\ log w' = log w ++ [EvJsonParse (getText document)]
        /\ _outdatedCache (provider w') = _outdatedCache (provider w)
        /\ settings w' = settings w
        /\ microtasks w' = microtasks w).
Proof.
  split.
  - apply provideCodeLenses_disabled.
  - intros Hon Hcases. apply not_false_flag in Hon.
    apply parse_failed_cases in Hcases.
    rewrite (provideCodeLenses_unparsable document token w Hon Hcases).
    eexists. split; [reflexivity|]. repeat split.
Qed.

(** C5: a rejection of the query is written to the console by
    [updateOutdated] and the promise it returns is fulfilled all the same,
    so the reactions of [provideCodeLenses] go on to call
    [generateCodeLenses], whatever other reactions run in between; an
    exception thrown by the callback of [generateDecoration] is written
    with [console.error] and the reaction returns normally, so that
    [generateDecoration] followed by the event loop never throws. *)
Theorem refresh_and_decoration_errors_are_swallowed :
  (forall w : World, fst (updateOutdated w) = Returned updateOutdated_reactions)
  /\ (forall (queried : Settled (list OutdatedEntry)) (others : Interleaving)
         (w : World),
        exists (v : option (list OutdatedEntry)) (w' : World),
          updateOutdated_reactions queried others w = (Returned (Fulfilled v), w')
          /\ forall e : JsError,
               queried = Rejected e ->
               w' = logged [EvConsoleLog (Some "npmGetOutdated") e]
                      (snd (run_reactions (after_store others) w)))
  /\ (forall (document : TextDocument) (token : CancellationToken) (w w1 : World)
         (chain : Pending (option (list CodeLens))),
        provide document token w = (Returned (ResultPromise chain), w1) ->
        forall (e : JsError) (others : Interleaving) (w2 : World),
          exists (v : option (list CodeLens)) (w3 : World)
            (g1 g2 after : list Event),
            chain (Rejected e) others w2 = (Returned (Fulfilled v), w3)
            /\ log w3
               = log w2 ++ g1
                 ++ EvConsoleLog (Some "npmGetOutdated") e
                    :: g2
                    ++ EvGenerateCodeLenses
                         (stored (after_store others ++ after_refresh others)
                            (_outdatedCache (provider w2)))
                       :: after
            /\ (after_store others = [] -> g1 = [])
            /\ (after_refresh others = [] -> g2 = []))
  /\ (forall (j : DecorationJob) (w : World),
        exists w' : World,
          run_job j w = (Returned tt, w')
          /\ forall (e : JsError) (w1 : World),
               decorationCallback (job_codeLens j) (job_outdated j) w
                 = (Thrown e, w1) ->
               w' = logged [EvConsoleError e] w1)
  /\ (forall (codeLens : CodeLens) (w : World),
        exists w' : World,
          generateDecoration_settled npmPackageDirExists codeLens w
          = (Returned tt, w')).
Proof.
  split; [|split; [|split; [|split]]].
  - intro w. reflexivity.
  - intros queried others w. rewrite updateOutdated_reactions_run.
    destruct queried as [results|e]; do 2 eexists; (split; [reflexivity|]);
      intros e' He'; [discriminate|].
    injection He' as <-. reflexivity.
  - intros document token w w1 chain Hrun e others w2.
    destruct (provideCodeLenses_promise document token w w1 chain Hrun)
      as (tree & -> & _).
    destruct (provideCodeLenses_reactions_run
                (parseDependencyNodes
                   (extractDependencyNodes tree npmDependencyProperties))
                document (Rejected e) others w2)
      as (w3 & g1 & g2 & g3 & Hchain & Hlog & _ & (Hnil1 & Hnil2 & _) & _).
    rewrite Hchain. unfold lenses_result.
    destruct (generateCodeLenses _ document) as [lenses|e'];
      do 5 eexists; (split; [reflexivity|]);
      (split; [exact Hlog|]); split; assumption.
  - intros j w. rewrite run_job_settles.
    destruct (decorationCallback (job_codeLens j) (job_outdated j) w)
      as [[u|e] w1]; eexists; (split; [reflexivity|]); intros e' w1' H;
      [discriminate|].
    injection H as <- <-. reflexivity.
  - intros codeLens w.
    unfold generateDecoration_settled, generateDecoration, drain. unfold_ops.
    destruct (npmPackageDirExists _ _); cbn -[run_jobs]; apply run_jobs_returns.
Qed.

(** C7 (amended): [updateOutdated] queries for [this._documentPath];
    when the query is fulfilled its reaction stores that whole result in
    [_outdatedCache], whatever the cache held before, and when the query
    is rejected the cache stays as it was; after that only a store of
    another request changes it.  Every request with [showVersionLenses]
    not false overwrites [_documentPath] with the directory of its
    document, and a request that reaches the refresh stage queries for
    that directory. *)
Theorem refresh_replaces_cache_and_path (document : TextDocument)
  (token : CancellationToken) (w : World) :
  updateOutdated w
    = (Returned updateOutdated_reactions,
       logged [EvNpmGetOutdated (_documentPath (provider w))] w)
  /\ (forall (queried : Settled (list OutdatedEntry)) (others : Interleaving)
         (w2 : World),
        exists (v : option (list OutdatedEntry)) (w3 : World),
          updateOutdated_reactions queried others w2
          = (Returned (Fulfilled v), w3)
          /\ _outdatedCache (provider w3)
             = stored (after_store others)
                 (match queried with
                  | Fulfilled results => results
                  | Rejected _ => _outdatedCache (provider w2)
                  end))
  /\ (showVersionLenses (settings w) <> Some false ->
      exists (r : ProvideResult) (w1 : World),
        provide document token w = (Returned r, w1)
        /\ _documentPath (provider w1) = dirname (fsPath document)
        /\ forall chain : Pending (option (list CodeLens)),
             r = ResultPromise chain ->
             (exists before : list Event,
                 log w1
                 = log w ++ before
                   ++ [EvNpmGetOutdated (dirname (fsPath document))])
             /\ forall (queried : Settled (list OutdatedEntry))
                  (others : Interleaving) (w2 : World),
                  exists (v : Settled (option (list CodeLens))) (w3 : World),
                    chain queried others w2 = (Returned v, w3)
                    /\ _outdatedCache (provider w3)
                       = stored (after_store others ++ after_refresh others
                                 ++ after_generation others)
                           (match queried with
                            | Fulfilled results => results
                            | Rejected _ => _outdatedCache (provider w2)
                            end)
                    /\ _documentPath (provider w3) = _documentPath (provider w2)).
Proof.
  split; [reflexivity|]. split.
  - intros queried others w2. rewrite updateOutdated_reactions_run.
    destruct queried as [results|e].
    + destruct (run_reactions_effect (after_store others) (with_cache results w2))
        as (w3 & g & Hrun & _ & _ & _ & Hcache & _).
      rewrite Hrun. do 2 eexists. split; [reflexivity|]. exact Hcache.
    + destruct (run_reactions_effect (after_store others) w2)
        as (w3 & g & Hrun & _ & _ & _ & Hcache & _).
      rewrite Hrun. do 2 eexists. split; [reflexivity|]. exact Hcache.
  - intro Hon. apply not_false_flag in Hon.
    destruct (parse_failed Node (jsonParse (getText document))) eqn:Hparse.
    + rewrite (provideCodeLenses_unparsable document token w Hon Hparse).
      do 2 eexists. split; [reflexivity|]. split; [reflexivity|].
      intros chain Hchain. discriminate.
    + destruct (provideCodeLenses_refreshing document token w Hon Hparse)
        as [tree Htree].
      rewrite Htree. do 2 eexists. split; [reflexivity|]. split; [reflexivity|].
      intros chain Hchain. injection Hchain as <-. split.
      * exists [EvJsonParse (getText document); EvExtractDependencyNodes;
                EvParseDependencyNodes]. reflexivity.
      * intros queried others w2.
        destruct (provideCodeLenses_reactions_run
                    (parseDependencyNodes
                       (extractDependencyNodes tree npmDependencyProperties))
                    document queried others w2)
          as (w3 & g1 & g2 & g3 & Hchain & _ & _ & _ & Hcache & _ & Hframe).
        rewrite Hchain. do 2 eexists. split; [reflexivity|].
        split; [|apply Hframe].
        rewrite Hcache. destruct queried; reflexivity.
Qed.

(** C8 (amended): in a request that hands back its promise, the query is
    started before the request returns and [generateCodeLenses] is not
    called yet; once the query settles, the reactions of [updateOutdated]
    run first (storing the result, or logging the rejection), and only
    then does this request call [generateCodeLenses], exactly once.  The
    cache the provider holds at that call is the result of the query when
    the query was fulfilled, and the cache as it was when it was rejected,
    unless a reaction of another request stored a result in between: then
    it is the last result stored. *)
Theorem lens_generation_awaits_refresh (document : TextDocument)
  (token : CancellationToken) (w w1 : World)
  (chain : Pending (option (list CodeLens))) :
  provide document token w = (Returned (ResultPromise chain), w1) ->
  (exists before : list Event,
      log w1 = log w ++ before ++ [EvNpmGetOutdated (dirname (fsPath document))]
      /\ generations before = 0)
  /\ forall (queried : Settled (list OutdatedEntry)) (others : Interleaving)
       (w2 : World),
       exists (v : Settled (option (list CodeLens))) (w3 : World)
         (g1 g2 g3 after : list Event),
         chain queried others w2 = (Returned v, w3)
         /\ log w3
            = log w2 ++ g1 ++ refresh_events queried ++ g2
              ++ EvGenerateCodeLenses
                   (stored (after_store others ++ after_refresh others)
                      (refreshed_cache queried (_outdatedCache (provider w2))))
                 :: g3 ++ after
         /\ generations g1 = foreign_generations (after_store others)
         /\ generations (refresh_events queried) = 0
         /\ generations g2 = foreign_generations (after_refresh others)
         /\ generations g3 = foreign_generations (after_generation others)
         /\ generations after = 0.
Proof.
  intro Hrun.
  destruct (provideCodeLenses_promise document token w w1 chain Hrun)
    as (tree & -> & ->).
  split.
  - exists [EvJsonParse (getText document); EvExtractDependencyNodes;
            EvParseDependencyNodes]. split; reflexivity.
  - intros queried others w2.
    destruct (provideCodeLenses_reactions_run
                (parseDependencyNodes
                   (extractDependencyNodes tree npmDependencyProperties))
                document queried others w2)
      as (w3 & g1 & g2 & g3 & Hchain & Hlog & (Hgen1 & Hgen2 & Hgen3) & _).
    rewrite Hchain. do 6 eexists. split; [reflexivity|].
    split; [exact Hlog|].
    split; [exact Hgen1|].
    split; [destruct queried; reflexivity|].
    split; [exact Hgen2|].
    split; [exact Hgen3|].
    unfold lenses_events. destruct (generateCodeLenses _ document); reflexivity.
Qed.

(** C9: the token is never read: two requests that differ only in the
    token return the same result, reactions included, and leave the same
    state. *)
Theorem token_is_never_read (document : TextDocument)
  (token1 token2 : CancellationToken) (w : World) :
  provide document token1 w = provide document token2 w.
Proof. reflexivity. Qed.

End Requests.

Lemma no_lenses_when_disabled_or_unparsable_witness :
  Sample.provide Sample.manifest Sample.token Sample.disabled_world
  = (Returned ResultUndefined, Sample.disabled_world)
  /\ exists w' : World,
       Sample.provide Sample.broken_manifest Sample.token (Sample.world [])
       = (Returned (ResultArray []), w')
       /\ log w' = log (Sample.world []) ++ [EvJsonParse "{"]
       /\ _outdatedCache (provider w') = []
       /\ settings w' = Sample.app_settings
       /\ microtasks w' = [].
Proof.
  split.
  - apply (proj1 (no_lenses_when_disabled_or_unparsable string string
                    (list CodeLens) Sample.dirname Sample.jsonParse
                    ["dependencies"; "devDependencies"; "peerDependencies";
                     "optionalDependencies"]
                    Sample.extractDependencyNodes Sample.parseDependencyNodes
                    Sample.generateCodeLenses
                    Sample.manifest Sample.token Sample.disabled_world)).
    reflexivity.
  - apply (proj2 (no_lenses_when_disabled_or_unparsable string string
                    (list CodeLens) Sample.dirname Sample.jsonParse
                    ["dependencies"; "devDependencies"; "peerDependencies";
                     "optionalDependencies"]
                    Sample.extractDependencyNodes Sample.parseDependencyNodes
                    Sample.generateCodeLenses
                    Sample.broken_manifest Sample.token (Sample.world []))).
    + discriminate.
    + right. eexists. split; [reflexivity|]. left. reflexivity.
Defined.

Lemma refresh_and_decoration_errors_are_swallowed_witness :
  exists (v : option (list CodeLens)) (w3 : World) (g1 g2 after : list Event),
    Sample.chain (Rejected (ErrorValue "ENOENT"))
      {| after_store := [];
         after_refresh := [StoreResults [Sample.lodash_behind]];
         after_generation := [] |}
      Sample.refreshing
    = (Returned (Fulfilled v), w3)
    /\ log w3
       = log Sample.refreshing ++ g1
         ++ EvConsoleLog (Some "npmGetOutdated") (ErrorValue "ENOENT")
            :: g2 ++ EvGenerateCodeLenses [Sample.lodash_behind] :: after
    /\ (@nil Reaction = [] -> g1 = [])
    /\ ([StoreResults [Sample.lodash_behind]] = [] -> g2 = []).
Proof.
  apply (proj1 (proj2 (proj2
           (refresh_and_decoration_errors_are_swallowed string string
              (list CodeLens) Sample.dirname Sample.jsonParse
              ["dependencies"; "devDependencies"; "peerDependencies";
               "optionalDependencies"]
              Sample.extractDependencyNodes Sample.parseDependencyNodes
              Sample.generateCodeLenses Sample.installed)))
           Sample.manifest Sample.token (Sample.world []) Sample.refreshing
           Sample.chain eq_refl
           (ErrorValue "ENOENT")
           {| after_store := [];
              after_refresh := [StoreResults [Sample.lodash_behind]];
              after_generation := [] |}
           Sample.refreshing).
Defined.

Lemma refresh_replaces_cache_and_path_witness :
  exists (r : ProvideResult) (w1 : World),
    Sample.provide Sample.manifest Sample.token (Sample.world [])
    = (Returned r, w1)
    /\ _documentPath (provider w1) = "/home/dev/app"
    /\ forall chain : Pending (option (list CodeLens)),
         r = ResultPromise chain ->
         (exists before : list Event,
             log w1
             = log (Sample.world []) ++ before
               ++ [EvNpmGetOutdated "/home/dev/app"])
         /\ forall (queried : Settled (list OutdatedEntry))
              (others : Interleaving) (w2 : World),
              exists (v : Settled (option (list CodeLens))) (w3 : World),
                chain queried others w2 = (Returned v, w3)
                /\ _outdatedCache (provider w3)
                   = stored (after_store others ++ after_refresh others
                             ++ after_generation others)
                       (match queried with
                        | Fulfilled results => results
                        | Rejected _ => _outdatedCache (provider w2)
                        end)
                /\ _documentPath (provider w3) = _documentPath (provider w2).
Proof.
  apply (proj2 (proj2
           (refresh_replaces_cache_and_path string string (list CodeLens) Sample.dirname Sample.jsonParse
              ["dependencies"; "devDependencies"; "peerDependencies";
               "optionalDependencies"]
              Sample.extractDependencyNodes Sample.parseDependencyNodes
              Sample.generateCodeLenses
              Sample.manifest Sample.token (Sample.world [])))).
  discriminate.
Defined.

(** C7, as stated, fails when the query is rejected: the request for the
    second project reaches the refresh stage and overwrites the document
    path, its query fails, and the cache is not replaced: the provider
    still holds the entries of the first project. *)
Lemma rejected_query_keeps_the_old_cache :
  match TwoProjects.provide TwoProjects.api_manifest Sample.token
          (Sample.world [Sample.lodash_behind]) with
  | (Returned (ResultPromise chain), w1) =>
      _documentPath (provider w1) = "/srv/api"
      /\ _outdatedCache
           (provider (snd (chain (Rejected (ErrorValue "ENOENT")) undisturbed w1)))
         = [Sample.lodash_behind]
  | _ => False
  end.
Proof. split; reflexivity. Qed.

Lemma lens_generation_awaits_refresh_witness :
  (exists before : list Event,
      log Sample.refreshing
      = log (Sample.world []) ++ before ++ [EvNpmGetOutdated "/home/dev/app"]
      /\ generations before = 0)
  /\ forall (queried : Settled (list OutdatedEntry)) (others : Interleaving)
       (w2 : World),
       exists (v : Settled (option (list CodeLens))) (w3 : World)
         (g1 g2 g3 after : list Event),
         Sample.chain queried others w2 = (Returned v, w3)
         /\ log w3
            = log w2 ++ g1 ++ refresh_events queried ++ g2
              ++ EvGenerateCodeLenses
                   (stored (after_store others ++ after_refresh others)
                      (refreshed_cache queried (_outdatedCache (provider w2))))
                 :: g3 ++ after
         /\ generations g1 = foreign_generations (after_store others)
         /\ generations (refresh_events queried) = 0
         /\ generations g2 = foreign_generations (after_refresh others)
         /\ generations g3 = foreign_generations (after_generation others)
         /\ generations after = 0.
Proof.
  apply (lens_generation_awaits_refresh string string (list CodeLens) Sample.dirname Sample.jsonParse
              ["dependencies"; "devDependencies"; "peerDependencies";
               "optionalDependencies"]
              Sample.extractDependencyNodes Sample.parseDependencyNodes
              Sample.generateCodeLenses
           Sample.manifest Sample.token (Sample.world []) Sample.refreshing
           Sample.chain).
  reflexivity.
Defined.

(** C8, as stated, fails when requests overlap: the query of this request
    is fulfilled and its result stored, the store of another request runs
    before this request's lens generation, and [generateCodeLenses] is
    called while the provider holds the other request's result. *)
Lemma overlapping_store_precedes_generation :
  log (snd (Sample.chain (Fulfilled [Sample.lodash_behind])
              {| after_store := [];
                 after_refresh := [StoreResults [Sample.lodash_not_installed]];
                 after_generation := [] |}
              Sample.refreshing))
  = log Sample.refreshing
    ++ [EvGenerateCodeLenses [Sample.lodash_not_installed]]
  /\ [Sample.lodash_not_installed] <> [Sample.lodash_behind].
Proof. split; [reflexivity|discriminate]. Qed.

(** ** Further properties of the decoration channel *)

(** X8: the callback looks at the cache only through the first entry with
    the package's name: the other entries, before or after it, make no
    difference, and a cache without such an entry is as good as an empty
    one. *)
Theorem first_entry_with_the_name_decides
  (codeLens : CodeLens) (outdated : list OutdatedEntry) (w : World) :
  decorationCallback codeLens outdated w
  = decorationCallback codeLens
      (match find (same_name codeLens) outdated with
       | Some found => [found]
       | None => []
       end) w.
Proof.
  destruct (find (same_name codeLens) outdated) as [found|] eqn:Hfind.
  - destruct (findIndex_some _ _ _ Hfind) as [Hidx Hat].
    assert (Hsame : same_name codeLens found = true)
      by (apply (find_some _ _ Hfind)).
    assert (Hone : find (same_name codeLens) [found] = Some found)
      by (simpl; rewrite Hsame; reflexivity).
    destruct (findIndex_some _ _ _ Hone) as [Hidx1 Hat1].
    unfold decorationCallback.
    change (fun entry : OutdatedEntry =>
              entry_name entry =? pkg_name (package codeLens))
      with (same_name codeLens).
    rewrite Hidx, Hat, Hidx1, Hat1. reflexivity.
  - unfold decorationCallback.
    change (fun entry : OutdatedEntry =>
              entry_name entry =? pkg_name (package codeLens))
      with (same_name codeLens).
    rewrite (findIndex_none _ _ Hfind). reflexivity.
Qed.

Section DecorationChannel.

Variable npmPackageDirExists : string -> string -> bool.

(** X6: the reaction works on the cache that [generateDecoration] read
    when it was called: a refresh of the cache or a new document path
    between the call and the reaction leaves the log of the run as it
    would have been without them. *)
Theorem decoration_is_fixed_at_the_call
  (codeLens : CodeLens) (later : list OutdatedEntry) (path : string) (w : World) :
  log (snd ((generateDecoration npmPackageDirExists codeLens ;;
             set_outdatedCache later ;; set_documentPath path ;; drain) w))
  = log (snd (generateDecoration_settled npmPackageDirExists codeLens w)).
Proof.
  split_world w.
  unfold generateDecoration_settled, generateDecoration, drain. unfold_ops.
  cbn -[run_jobs].
  destruct (npmPackageDirExists path0 (pkg_name (package codeLens)));
    cbn -[run_jobs];
    match goal with
    | |- context [run_jobs ?js _] =>
        destruct (run_jobs_events js) as [delta Hrun]
    end;
    rewrite !Hrun; reflexivity.
Qed.

(** X7: from an empty queue, one decoration resolution ends either with
    exactly one decoration rendered and nothing on [console.error], or
    with exactly one error on [console.error] and nothing rendered; the
    second happens exactly when the install directory exists and the tag
    of the package metadata cannot be read. *)
Theorem one_decoration_or_one_error (codeLens : CodeLens) (w : World) :
  microtasks w = [] ->
  exists (w' : World) (delta : list Event),
    generateDecoration_settled npmPackageDirExists codeLens w = (Returned tt, w')
    /\ log w' = log w ++ delta
    /\ (if npmPackageDirExists (_documentPath (provider w))
             (pkg_name (package codeLens))
           && negb (has_tag codeLens)
        then rendered delta = [] /\ length (console_errors delta) = 1
        else length (rendered delta) = 1 /\ console_errors delta = []).
Proof.
  intro Hqueue.
  rewrite (generateDecoration_settled_run npmPackageDirExists codeLens w Hqueue).
  cbv zeta.
  destruct (npmPackageDirExists (_documentPath (provider w))
              (pkg_name (package codeLens))); simpl.
  - match goal with
    | |- context [decorationCallback ?l ?o ?v] =>
        destruct (callback_outcome l o v)
          as [[Htag (delta & Hrun & Hone & Hquiet)]|[Htag (msg & Hrun)]]
    end; rewrite Hrun, Htag; simpl.
    + do 2 eexists. split; [reflexivity|].
      rewrite logged_logged. split; [reflexivity|].
      simpl. split; assumption.
    + do 2 eexists. split; [reflexivity|].
      rewrite logged_logged. split; [reflexivity|].
      simpl. split; reflexivity.
  - do 2 eexists. split; [reflexivity|].
    rewrite logged_logged. split; [reflexivity|].
    simpl. split; reflexivity.
Qed.

End DecorationChannel.

Lemma one_decoration_or_one_error_witness :
  exists (w' : World) (delta : list Event),
    generateDecoration_settled Sample.installed Sample.lodash_without_meta
      (Sample.world [Sample.lodash_behind]) = (Returned tt, w')
    /\ log w' = log (Sample.world [Sample.lodash_behind]) ++ delta
    /\ rendered delta = [] /\ length (console_errors delta) = 1.
Proof.
  apply (one_decoration_or_one_error Sample.installed
           Sample.lodash_without_meta (Sample.world [Sample.lodash_behind])).
  reflexivity.
Defined.

(** ** Further properties of command resolution *)

Ltac frame_done :=
  do 4 (split; [reflexivity|]); split; [simpl; lia|].

Section CommandResolution.

Variable npmPackageDirExists : string -> string -> bool.

(** X1: [evaluateCodeLens] writes neither field of the provider and no
    setting, whatever the lens: beyond the log, all it leaves is at most
    one reaction added at the end of the queue. *)
Theorem evaluateCodeLens_keeps_provider_state (codeLens : CodeLens) (w : World) :
  exists (c : Command) (w' : World) (jobs : list DecorationJob),
    evaluateCodeLens npmPackageDirExists codeLens w = (Returned c, w')
    /\ provider w' = provider w
    /\ settings w' = settings w
    /\ microtasks w' = microtasks w ++ jobs
    /\ length jobs <= 1
    /\ forall j : DecorationJob,
         In j jobs ->
         job_codeLens j = codeLens
         /\ job_outdated j = _outdatedCache (provider w).
Proof.
  unfold evaluateCodeLens.
  assert (Hregistry :
            exists (c : Command) (w' : World) (jobs : list DecorationJob),
              evaluateRegistryPackage npmPackageDirExists codeLens w
              = (Returned c, w')
              /\ provider w' = provider w /\ settings w' = settings w
              /\ microtasks w' = microtasks w ++ jobs /\ length jobs <= 1
              /\ forall j : DecorationJob,
                   In j jobs ->
                   job_codeLens j = codeLens
                   /\ job_outdated j = _outdatedCache (provider w)).
  { split_world w.
    unfold evaluateRegistryPackage, generateDecoration. unfold_ops. simpl.
    destruct (packageNotFound codeLens); simpl;
      [|destruct (packageNotSupported codeLens); simpl;
        [|destruct (isTaggedVersion codeLens); simpl;
          [|destruct (enabled statuses); simpl;
            [destruct (npmPackageDirExists path (pkg_name (package codeLens)));
             simpl|];
            (destruct (isInvalidVersion codeLens); simpl;
             [|destruct (versionMatchNotFound codeLens); simpl;
               [|destruct (matchesPrereleaseVersion codeLens); simpl;
                 [|destruct (matchesLatestVersion codeLens); simpl;
                   [|destruct (satisfiesLatestVersion codeLens); simpl;
                     [|destruct (isFixedVersion codeLens); simpl]]]]])]]].
    all: first
      [ do 2 eexists; exists []; rewrite app_nil_r; frame_done; intros j []
      | do 3 eexists; frame_done; intros j [<-|[]]; split; reflexivity ]. }
  destruct (pkg_meta (package codeLens)) as [m|]; [|exact Hregistry].
  destruct (meta_type m =? "github").
  - exists (GithubCommand codeLens), w, []. rewrite app_nil_r.
    frame_done. intros j [].
  - destruct (meta_type m =? "file"); [|exact Hregistry].
    exists (LinkCommand codeLens), w, []. rewrite app_nil_r.
    frame_done. intros j [].
Qed.

(** X2: a lens whose metadata has type "github" or "file" gets its link
    command at once: no predicate is called and no decoration is started
    or queued, whatever the predicates would answer and whatever the
    settings are. *)
Theorem link_types_short_circuit (codeLens : CodeLens) (w : World) :
  meta_type_is codeLens "github" || meta_type_is codeLens "file" = true ->
  evaluateCodeLens npmPackageDirExists codeLens w
  = (Returned (if meta_type_is codeLens "github"
               then GithubCommand codeLens
               else LinkCommand codeLens), w).
Proof.
  unfold meta_type_is, evaluateCodeLens.
  destruct (pkg_meta (package codeLens)) as [m|]; [|discriminate].
  destruct (meta_type m =? "github"); [reflexivity|].
  destruct (meta_type m =? "file"); [reflexivity|discriminate].
Qed.

End CommandResolution.

(** ** Further properties of lens requests *)

(** X9: when several queries settle one after the other, the cache ends
    up holding the result of the last one that was fulfilled; rejected
    queries leave what is there, and nothing else in the provider or the
    settings changes. *)
Theorem last_fulfilled_query_wins (queries : list (Settled (list OutdatedEntry))) :
  forall w : World,
    exists w' : World,
      settle_in_order queries w = (Returned tt, w')
      /\ _outdatedCache (provider w')
         = match last_fulfilled queries with
           | Some results => results
           | None => _outdatedCache (provider w)
           end
      /\ _documentPath (provider w') = _documentPath (provider w)
      /\ settings w' = settings w.
Proof.
  induction queries as [|queried rest IH]; intro w; simpl.
  - exists w. repeat split.
  - unfold bind. rewrite updateOutdated_reactions_run. simpl.
    destruct queried as [results|e].
    + destruct (IH (with_cache results w)) as (w' & Hrun & Hcache & Hpath & Hset).
      exists w'. rewrite Hrun. split; [reflexivity|].
      rewrite Hcache, Hpath, Hset.
      destruct (last_fulfilled rest); repeat split.
    + destruct (IH (logged [EvConsoleLog (Some "npmGetOutdated") e] w))
        as (w' & Hrun & Hcache & Hpath & Hset).
      exists w'. rewrite Hrun. split; [reflexivity|].
      rewrite Hcache, Hpath, Hset.
      destruct (last_fulfilled rest); repeat split.
Qed.

Section LensRequests.

Variables Node DependencyNode PackageCollection : Type.
Variable dirname : string -> string.
Variable jsonParse : string -> option (JsonDocument Node).
Variable npmDependencyProperties : list string.
Variable extractDependencyNodes : Node -> list string -> list DependencyNode.
Variable parseDependencyNodes : list DependencyNode -> PackageCollection.
Variable generateCodeLenses :
  PackageCollection -> TextDocument -> Settled (list CodeLens).
Variable npmPackageDirExists : string -> string -> bool.

Local Abbreviation provide :=
  (provideCodeLenses Node DependencyNode PackageCollection dirname jsonParse
     npmDependencyProperties extractDependencyNodes parseDependencyNodes
     generateCodeLenses).

Local Abbreviation reactions :=
  (provideCodeLenses_reactions PackageCollection generateCodeLenses).

(** The document parses: a root node and no validation error. *)
Lemma parse_succeeded_cases (jsonDoc : option (JsonDocument Node)) :
  parse_failed Node jsonDoc = false
  <-> exists tree : Node,
        jsonDoc = Some {| root := Some tree; validationErrors := [] |}.
Proof.
  unfold parse_failed.
  destruct jsonDoc as [[[tree|] [|e errors]]|]; simpl; split;
    try discriminate; try (intros [tree' H]; discriminate).
  - intros _. exists tree. reflexivity.
  - reflexivity.
Qed.

(** A request that reaches the refresh stage, by the tree of its
    document. *)
Lemma provideCodeLenses_of_tree (document : TextDocument)
  (token : CancellationToken) (w : World) (tree : Node) :
  is_false (showVersionLenses (settings w)) = false ->
  jsonParse (getText document)
    = Some {| root := Some tree; validationErrors := [] |} ->
  provide document token w
  = (Returned
       (ResultPromise
          (reactions updateOutdated_reactions
             (parseDependencyNodes
                (extractDependencyNodes tree npmDependencyProperties))
             document)),
     logged [EvJsonParse (getText document); EvExtractDependencyNodes;
             EvParseDependencyNodes;
             EvNpmGetOutdated (dirname (fsPath document))]
       (with_inProgress true (with_path (dirname (fsPath document)) w))).
Proof.
  intros Hon Hparsed. unfold provideCodeLenses, updateOutdated. unfold_ops.
  rewrite Hon. simpl. rewrite Hparsed. simpl.
  unfold logged, with_inProgress, with_path. simpl.
  rewrite <- !app_assoc. reflexivity.
Qed.

(** X3: a request hands back a promise exactly when [showVersionLenses]
    is not false (an unset flag counts as on) and the document parses to
    a tree with a root and without validation errors. *)
Theorem request_result_shape (document : TextDocument)
  (token : CancellationToken) (w : World) :
  (exists (chain : Pending (option (list CodeLens))) (w1 : World),
      provide document token w = (Returned (ResultPromise chain), w1))
  <-> showVersionLenses (settings w) <> Some false
      /\ exists tree : Node,
           jsonParse (getText document)
           = Some {| root := Some tree; validationErrors := [] |}.
Proof.
  destruct (is_false (showVersionLenses (settings w))) eqn:Hflag.
  - pose proof (provideCodeLenses_disabled _ _ _ dirname jsonParse
                  npmDependencyProperties extractDependencyNodes
                  parseDependencyNodes generateCodeLenses document token w
                  (is_false_flag _ Hflag)) as Hrun.
    rewrite Hrun. split.
    + intros (chain & w1 & H). discriminate.
    + intros [Hon _]. elim Hon. apply is_false_flag. exact Hflag.
  - assert (Hon : showVersionLenses (settings w) <> Some false)
      by (intro H; rewrite H in Hflag; discriminate).
    destruct (parse_failed Node (jsonParse (getText document))) eqn:Hparse.
    + rewrite (provideCodeLenses_unparsable _ _ _ dirname jsonParse
                 npmDependencyProperties extractDependencyNodes
                 parseDependencyNodes generateCodeLenses document token w
                 Hflag Hparse).
      split.
      * intros (chain & w1 & H). discriminate.
      * intros [_ (tree & Htree)].
        rewrite Htree in Hparse. discriminate.
    + destruct (proj1 (parse_succeeded_cases _) Hparse) as [tree Htree].
      rewrite (provideCodeLenses_of_tree document token w tree Hflag Htree).
      split.
      * intros _. split; [exact Hon|]. exists tree. exact Htree.
      * intros _. do 2 eexists. reflexivity.
Qed.


(** X5: the promise handed to the editor never rejects.  It is fulfilled
    with the lenses that [generateCodeLenses] gives for the dependency
    nodes of the document's root, or with [undefined] after the failure of
    [generateCodeLenses] was written with [console.log]; neither the
    outcome of the registry query nor the reactions that run in between
    have a part in this value. *)
Theorem editor_promise_never_rejects (document : TextDocument)
  (token : CancellationToken) (w w1 : World)
  (chain : Pending (option (list CodeLens))) :
  provide document token w = (Returned (ResultPromise chain), w1) ->
  exists tree : Node,
    jsonParse (getText document)
    = Some {| root := Some tree; validationErrors := [] |}
    /\ forall (queried : Settled (list OutdatedEntry)) (others : Interleaving)
         (w2 : World),
         exists (w3 : World) (g1 g2 g3 : list Event),
           chain queried others w2
           = (Returned
                match generateCodeLenses
                        (parseDependencyNodes
                           (extractDependencyNodes tree npmDependencyProperties))
                        document with
                | Fulfilled lenses => Fulfilled (Some lenses)
                | Rejected _ => Fulfilled None
                end, w3)
           /\ log w3
              = log w2 ++ g1 ++ refresh_events queried ++ g2
                ++ EvGenerateCodeLenses
                     (stored (after_store others ++ after_refresh others)
                        (refreshed_cache queried (_outdatedCache (provider w2))))
                   :: g3
                   ++ match generateCodeLenses
                              (parseDependencyNodes
                                 (extractDependencyNodes tree
                                    npmDependencyProperties))
                              document with
                      | Fulfilled _ => []
                      | Rejected e => [EvConsoleLog None e]
                      end
           /\ (after_store others = [] -> g1 = [])
           /\ (after_refresh others = [] -> g2 = [])
           /\ (after_generation others = [] -> g3 = []).
Proof.
  intro Hrun.
  destruct (is_false (showVersionLenses (settings w))) eqn:Hflag.
  - rewrite (provideCodeLenses_disabled _ _ _ dirname jsonParse
               npmDependencyProperties extractDependencyNodes
               parseDependencyNodes generateCodeLenses document token w
               (is_false_flag _ Hflag)) in Hrun.
    discriminate.
  - destruct (parse_failed Node (jsonParse (getText document))) eqn:Hparse.
    + rewrite (provideCodeLenses_unparsable _ _ _ dirname jsonParse
                 npmDependencyProperties extractDependencyNodes
                 parseDependencyNodes generateCodeLenses document token w
                 Hflag Hparse) in Hrun.
      discriminate.
    + destruct (proj1 (parse_succeeded_cases _) Hparse) as [tree Htree].
      rewrite (provideCodeLenses_of_tree document token w tree Hflag Htree)
        in Hrun.
      injection Hrun as <- <-.
      exists tree. split; [exact Htree|].
      intros queried others w2.
      destruct (provideCodeLenses_reactions_run PackageCollection
                  generateCodeLenses
                  (parseDependencyNodes
                     (extractDependencyNodes tree npmDependencyProperties))
                  document queried others w2)
        as (w3 & g1 & g2 & g3 & Hchain & Hlog & _ & (Hnil1 & Hnil2 & Hnil3) & _).
      exists w3, g1, g2, g3. split; [exact Hchain|].
      split; [exact Hlog|]. repeat split; assumption.
Qed.

(** A request with the feature on: it returns, with the directory of its
    document in [_documentPath] and the feature flag as it was. *)
Lemma provideCodeLenses_enabled (document : TextDocument)
  (token : CancellationToken) (w : World) :
  is_false (showVersionLenses (settings w)) = false ->
  exists (r : ProvideResult) (w1 : World),
    provide document token w = (Returned r, w1)
    /\ _documentPath (provider w1) = dirname (fsPath document)
    /\ showVersionLenses (settings w1) = showVersionLenses (settings w).
Proof.
  intro Hflag.
  destruct (parse_failed Node (jsonParse (getText document))) eqn:Hparse.
  - rewrite (provideCodeLenses_unparsable _ _ _ dirname jsonParse
               npmDependencyProperties extractDependencyNodes
               parseDependencyNodes generateCodeLenses document token w
               Hflag Hparse).
    do 2 eexists. repeat split.
  - destruct (proj1 (parse_succeeded_cases _) Hparse) as [tree Htree].
    rewrite (provideCodeLenses_of_tree document token w tree Hflag Htree).
    do 2 eexists. repeat split.
Qed.

(** X10: the provider keeps one document path.  After a request for one
    document and then a request for another, the decoration of any lens,
    also of a lens of the first document, tests the install directory
    under the directory of the second document. *)
Theorem decorations_use_the_latest_request
  (first second : TextDocument) (token1 token2 : CancellationToken)
  (codeLens : CodeLens) (w : World) :
  showVersionLenses (settings w) <> Some false ->
  exists (r1 r2 : ProvideResult) (w2 w3 : World) (delta : list Event),
    (r1 <- provide first token1 ;; r2 <- provide second token2 ;; ret (r1, r2)) w
    = (Returned (r1, r2), w2)
    /\ generateDecoration npmPackageDirExists codeLens w2 = (Returned tt, w3)
    /\ log w3
       = log w2
         ++ EvPackageDirExists (dirname (fsPath second))
              (pkg_name (package codeLens)) :: delta.
Proof.
  intro Hon. apply not_false_flag in Hon.
  destruct (provideCodeLenses_enabled first token1 w Hon)
    as (r1 & w1 & Hrun1 & _ & Hflag1).
  rewrite <- Hflag1 in Hon.
  destruct (provideCodeLenses_enabled second token2 w1 Hon)
    as (r2 & w2 & Hrun2 & Hpath & _).
  exists r1, r2, w2.
  unfold bind at 1. rewrite Hrun1. unfold bind at 1. rewrite Hrun2.
  unfold generateDecoration. unfold_ops. rewrite Hpath. simpl.
  destruct (npmPackageDirExists _ _); simpl; do 2 eexists;
    (split; [reflexivity|]); (split; [reflexivity|]);
    rewrite <- ?app_assoc; reflexivity.
Qed.

(** X11: a request itself never writes the cache: when it returns, also
    with a promise, the provider still holds the cache of the previous
    request, already paired with the directory of the new document; only
    the settlement of the query replaces it. *)
Theorem request_leaves_cache_until_settlement (document : TextDocument)
  (token : CancellationToken) (w w1 : World) (r : ProvideResult) :
  provide document token w = (Returned r, w1) ->
  _outdatedCache (provider w1) = _outdatedCache (provider w)
  /\ microtasks w1 = microtasks w
  /\ forall chain : Pending (option (list CodeLens)),
       r = ResultPromise chain ->
       _documentPath (provider w1) = dirname (fsPath document).
Proof.
  intro Hrun.
  destruct (is_false (showVersionLenses (settings w))) eqn:Hflag.
  - rewrite (provideCodeLenses_disabled _ _ _ dirname jsonParse
               npmDependencyProperties extractDependencyNodes
               parseDependencyNodes generateCodeLenses document token w
               (is_false_flag _ Hflag)) in Hrun.
    injection Hrun as <- <-.
    split; [reflexivity|]. split; [reflexivity|]. discriminate.
  - destruct (parse_failed Node (jsonParse (getText document))) eqn:Hparse.
    + rewrite (provideCodeLenses_unparsable _ _ _ dirname jsonParse
                 npmDependencyProperties extractDependencyNodes
                 parseDependencyNodes generateCodeLenses document token w
                 Hflag Hparse) in Hrun.
      injection Hrun as <- <-.
      split; [reflexivity|]. split; [reflexivity|]. discriminate.
    + destruct (proj1 (parse_succeeded_cases _) Hparse) as [tree Htree].
      rewrite (provideCodeLenses_of_tree document token w tree Hflag Htree)
        in Hrun.
      injection Hrun as <- <-.
      split; [reflexivity|]. split; [reflexivity|]. reflexivity.
Qed.

End LensRequests.

Lemma link_types_short_circuit_witness :
  evaluateCodeLens Sample.installed TwoProjects.linked (Sample.world [])
  = (Returned (GithubCommand TwoProjects.linked), Sample.world []).
Proof.
  apply (link_types_short_circuit Sample.installed TwoProjects.linked
           (Sample.world [])).
  reflexivity.
Defined.


Lemma editor_promise_never_rejects_witness :
  exists tree : string,
    Sample.jsonParse (getText Sample.manifest)
    = Some {| root := Some tree; validationErrors := [] |}
    /\ forall (queried : Settled (list OutdatedEntry)) (others : Interleaving)
         (w2 : World),
         exists (w3 : World) (g1 g2 g3 : list Event),
           Sample.chain queried others w2
           = (Returned
                match Sample.generateCodeLenses
                        (Sample.parseDependencyNodes
                           (Sample.extractDependencyNodes tree
                              ["dependencies"; "devDependencies";
                               "peerDependencies"; "optionalDependencies"]))
                        Sample.manifest with
                | Fulfilled lenses => Fulfilled (Some lenses)
                | Rejected _ => Fulfilled None
                end, w3)
           /\ log w3
              = log w2 ++ g1 ++ refresh_events queried ++ g2
                ++ EvGenerateCodeLenses
                     (stored (after_store others ++ after_refresh others)
                        (refreshed_cache queried (_outdatedCache (provider w2))))
                   :: g3
                   ++ match Sample.generateCodeLenses
                              (Sample.parseDependencyNodes
                                 (Sample.extractDependencyNodes tree
                                    ["dependencies"; "devDependencies";
                                     "peerDependencies";
                                     "optionalDependencies"]))
                              Sample.manifest with
                      | Fulfilled _ => []
                      | Rejected e => [EvConsoleLog None e]
                      end
           /\ (after_store others = [] -> g1 = [])
           /\ (after_refresh others = [] -> g2 = [])
           /\ (after_generation others = [] -> g3 = []).
Proof.
  apply (editor_promise_never_rejects string string (list CodeLens)
           Sample.dirname Sample.jsonParse
           ["dependencies"; "devDependencies"; "peerDependencies";
            "optionalDependencies"]
           Sample.extractDependencyNodes Sample.parseDependencyNodes
           Sample.generateCodeLenses
           Sample.manifest Sample.token (Sample.world []) Sample.refreshing
           Sample.chain).
  reflexivity.
Defined.

Lemma decorations_use_the_latest_request_witness :
  exists (r1 r2 : ProvideResult) (w2 w3 : World) (delta : list Event),
    (r1 <- TwoProjects.provide Sample.manifest Sample.token ;;
     r2 <- TwoProjects.provide TwoProjects.api_manifest Sample.token ;;
     ret (r1, r2)) (Sample.world [])
    = (Returned (r1, r2), w2)
    /\ generateDecoration Sample.installed Sample.lodash w2 = (Returned tt, w3)
    /\ log w3
       = log w2 ++ EvPackageDirExists "/srv/api" "lodash" :: delta.
Proof.
  apply (decorations_use_the_latest_request string string (list CodeLens)
           TwoProjects.dirname Sample.jsonParse
           ["dependencies"; "devDependencies"; "peerDependencies";
            "optionalDependencies"]
           Sample.extractDependencyNodes Sample.parseDependencyNodes
           Sample.generateCodeLenses Sample.installed
           Sample.manifest TwoProjects.api_manifest Sample.token Sample.token
           Sample.lodash (Sample.world [])).
  discriminate.
Defined.

Lemma request_leaves_cache_until_settlement_witness :
  _outdatedCache (provider (snd (TwoProjects.provide TwoProjects.api_manifest
                                   Sample.token
                                   (Sample.world [Sample.lodash_behind]))))
  = [Sample.lodash_behind]
  /\ microtasks (snd (TwoProjects.provide TwoProjects.api_manifest Sample.token
                        (Sample.world [Sample.lodash_behind])))
     = []
  /\ forall chain : Pending (option (list CodeLens)),
       fst (TwoProjects.provide TwoProjects.api_manifest Sample.token
              (Sample.world [Sample.lodash_behind]))
       = Returned (ResultPromise chain) ->
       _documentPath (provider (snd (TwoProjects.provide TwoProjects.api_manifest
                                       Sample.token
                                       (Sample.world [Sample.lodash_behind]))))
       = "/srv/api".
Proof.
  pose proof (request_leaves_cache_until_settlement string string (list CodeLens)
                TwoProjects.dirname Sample.jsonParse
                ["dependencies"; "devDependencies"; "peerDependencies";
                 "optionalDependencies"]
                Sample.extractDependencyNodes Sample.parseDependencyNodes
                Sample.generateCodeLenses
                TwoProjects.api_manifest Sample.token
                (Sample.world [Sample.lodash_behind])
                (snd (TwoProjects.provide TwoProjects.api_manifest Sample.token
                        (Sample.world [Sample.lodash_behind])))
                _ eq_refl) as (Hcache & Hqueue & Hpath).
  split; [exact Hcache|]. split; [exact Hqueue|].
  intros chain _. reflexivity.
Defined.
